(** * np_to_memref: numpy arrays and MLIR memref descriptors

    A shallow embedding of [_mlir/runtime/np_to_memref.py] and of the parts
    of [ctypes] and [numpy] it calls, followed by the properties of the
    conversions between arrays and descriptors.

    Conventions of the model.
    - Python exceptions are values of [exn]; a call that may raise returns a
      [result].
    - A [class] statement executed inside a function creates a new class
      object at every call; the functions that do so run in the monad [M],
      whose state is the number of classes created so far.
    - The host is a 64-bit one: pointers are 8 bytes wide, [c_longlong] is
      the 8-byte signed integer, and integers are stored little-endian.
    - A ctypes structure instance is its byte buffer together with its
      class; a pointer to an instance is a reference to that buffer, so that
      [ctypes.cast] re-reads the same bytes through another class.
    - The element buffer of an array is only ever addressed, never read or
      written, by this module: a pointer to elements is a numeric address. *)

From Stdlib Require Import ZArith String List Bool Lia.
From coqutil Require Import Byte Word.LittleEndianList.
Import ListNotations.
Local Open Scope Z_scope.

(** ** Exceptions and the two monads *)

Inductive exn :=
| NotImplementedError          (* numpy has no ctypes counterpart for a dtype *)
| AssertionError (msg : string)
| AttributeError (attr : string)
| ValueError
| TypeError
| ZeroDivisionError
| OverflowError
| MemoryError
| OutOfBounds.                 (* a read past the end of an instance's buffer *)

Inductive result (A : Type) :=
| Ok (a : A)
| Raise (e : exn).
Arguments Ok {A} a.
Arguments Raise {A} e.

Definition bind {A B} (r : result A) (k : A -> result B) : result B :=
  match r with
  | Ok a => k a
  | Raise e => Raise e
  end.

Notation "x <- c ;; k" := (bind c (fun x => k))
  (at level 61, c at next level, right associativity).

(** The state counts the classes created so far; it is the identity given
    to the next one. *)
Definition M (A : Type) := nat -> result (A * nat).

Definition ret {A} (a : A) : M A := fun s => Ok (a, s).

Definition bindM {A B} (m : M A) (k : A -> M B) : M B :=
  fun s => match m s with
           | Ok (a, s') => k a s'
           | Raise e => Raise e
           end.

Definition lift {A} (r : result A) : M A :=
  fun s => match r with
           | Ok a => Ok (a, s)
           | Raise e => Raise e
           end.

Notation "x <~ c ;; k" := (bindM c (fun x => k))
  (at level 61, c at next level, right associativity).

(** The value a computation returns, whatever the state it ends in. *)
Definition value_of {A} (r : result (A * nat)) : result A :=
  match r with
  | Ok (a, _) => Ok a
  | Raise e => Raise e
  end.

(** ** ctypes: element types *)

(** The simple ctypes types [np.ctypeslib] knows, and the five structures
    this module declares for the element types numpy cannot map. *)
Inductive ctype :=
| c_bool | c_byte | c_short | c_int | c_longlong
| c_ubyte | c_ushort | c_uint | c_ulonglong
| c_float | c_double
| C128 | C64 | F16 | BF16 | F8E5M2.

Definition ctype_eq_dec (a b : ctype) : {a = b} + {a <> b}.
Proof. decide equality. Defined.

(** [_fields_] of the five structures; [None] for a simple type. *)
Definition struct_fields (t : ctype) : option (list (string * ctype)) :=
  match t with
  | C128 => Some [("real"%string, c_double); ("imag"%string, c_double)]
  | C64 => Some [("real"%string, c_float); ("imag"%string, c_float)]
  | F16 => Some [("f16"%string, c_short)]      (* c_int16 *)
  | BF16 => Some [("bf16"%string, c_short)]    (* c_int16 *)
  | F8E5M2 => Some [("f8E5M2"%string, c_byte)] (* c_int8 *)
  | _ => None
  end.

Definition sizeof_simple (t : ctype) : nat :=
  match t with
  | c_bool | c_byte | c_ubyte => 1
  | c_short | c_ushort => 2
  | c_int | c_uint | c_float => 4
  | c_longlong | c_ulonglong | c_double => 8
  | _ => 0
  end.

(** Natural alignment: the offset of a field is rounded up to its
    alignment, the size of a structure to its largest alignment. *)
Definition align_up (off a : nat) : nat := ((off + a - 1) / a * a)%nat.

(** Fields given as (size, alignment): the offsets they get from [off] on,
    and the first free offset after them. *)
Fixpoint place (off : nat) (fs : list (nat * nat)) : list nat * nat :=
  match fs with
  | [] => ([], off)
  | (sz, al) :: r =>
      let o := align_up off al in
      let (os, e) := place (o + sz)%nat r in
      (o :: os, e)
  end.

Definition struct_align (fs : list (nat * nat)) : nat :=
  fold_right (fun f m => Nat.max (snd f) m) 1%nat fs.

Definition struct_size (fs : list (nat * nat)) : nat :=
  align_up (snd (place 0 fs)) (struct_align fs).

(** [ctypes.sizeof] of an element type. *)
Definition sizeof (t : ctype) : nat :=
  match struct_fields t with
  | None => sizeof_simple t
  | Some fs => struct_size (map (fun f => (sizeof_simple (snd f), sizeof_simple (snd f))) fs)
  end.

(** ** ctypes: the structures built for descriptors *)

(** The type of a field of a descriptor structure. *)
Inductive ftype :=
| LongLong                (* ctypes.c_longlong *)
| POINTER (t : ctype)     (* ctypes.POINTER(t) *)
| LongLongArray (n : nat) (* ctypes.c_longlong * n *)
| c_void_p.

(** A subclass of [ctypes.Structure]: its identity, its docstring and its
    [_fields_]. *)
Record Structure := {
  cls_id : nat;
  cls_doc : string;
  _fields_ : list (string * ftype)
}.

Definition sizeof_field (t : ftype) : nat :=
  match t with
  | LongLong => 8
  | POINTER _ => 8
  | LongLongArray n => 8 * n
  | c_void_p => 8
  end.

Definition alignment_field (t : ftype) : nat := 8.

Definition extent (f : string * ftype) : nat * nat :=
  (sizeof_field (snd f), alignment_field (snd f)).

(** The fields of a class with the byte offset of each. *)
Definition layout (cls : Structure) : list (string * (nat * ftype)) :=
  combine (map fst (_fields_ cls))
          (combine (fst (place 0 (map extent (_fields_ cls))))
                   (map snd (_fields_ cls))).

Definition sizeof_struct (cls : Structure) : nat :=
  struct_size (map extent (_fields_ cls)).

Fixpoint lookup {A} (name : string) (l : list (string * A)) : option A :=
  match l with
  | [] => None
  | (n, a) :: r => if String.eqb n name then Some a else lookup name r
  end.

(** An instance of a structure: the class and the bytes. *)
Record instance := {
  itype : Structure;
  buffer : list byte
}.

(** [cls()]: a zero-filled buffer of [sizeof(cls)] bytes. *)
Definition new (cls : Structure) : instance :=
  {| itype := cls; buffer := repeat Byte.x00 (sizeof_struct cls) |}.

(** A [POINTER(ptype)] instance: the element type and the address held. *)
Record pointer := {
  ptype : ctype;
  addr : Z
}.

(** What reading a field gives, and what can be assigned to one. *)
Inductive value :=
| VInt (z : Z)             (* a Python int, or a c_longlong instance *)
| VPtr (p : pointer)
| VArr (a : list Z)        (* an instance of c_longlong * len(a) *)
| VNone.

Definition two64 : Z := 2 ^ 64.

(** The value of a [c_longlong] whose 64 bits are those of [z]: ctypes
    keeps the low 64 bits of an integer and never checks for overflow. *)
Definition c_longlong_value (z : Z) : Z :=
  let u := z mod two64 in
  if u <? 2 ^ 63 then u else u - two64.

(** The array of [c_longlong] built from the integers [vals], one element
    per integer. *)
Definition c_longlong_array (vals : list Z) : list Z :=
  map c_longlong_value vals.

Definition read (buf : list byte) (off len : nat) : result (list byte) :=
  if (off + len <=? length buf)%nat
  then Ok (firstn len (skipn off buf))
  else Raise OutOfBounds.

Definition write (buf : list byte) (off : nat) (bs : list byte) : list byte :=
  firstn off buf ++ bs ++ skipn (off + length bs) buf.

(** The [n] 64-bit words stored in [bs]. *)
Fixpoint words (n : nat) (bs : list byte) : list Z :=
  match n with
  | O => []
  | S k => c_longlong_value (le_combine (firstn 8 bs)) :: words k (skipn 8 bs)
  end.

(** The value the bytes of a field of type [t] are read as. *)
Definition decode (t : ftype) (bs : list byte) : value :=
  match t with
  | LongLong => VInt (c_longlong_value (le_combine bs))
  | POINTER e => VPtr {| ptype := e; addr := le_combine bs |}
  | LongLongArray n => VArr (words n bs)
  | c_void_p => if le_combine bs =? 0 then VNone else VInt (le_combine bs)
  end.

(** [x.name] *)
Definition getattr (x : instance) (name : string) : result value :=
  match lookup name (layout (itype x)) with
  | None => Raise (AttributeError name)
  | Some (off, t) =>
      bs <- read (buffer x) off (sizeof_field t) ;;
      Ok (decode t bs)
  end.

(** The bytes a value is stored as in a field of type [t]; ctypes refuses a
    value of another type. *)
Definition encode (t : ftype) (v : value) : result (list byte) :=
  match t, v with
  | LongLong, VInt z => Ok (le_split 8 z)
  | POINTER e, VPtr p =>
      if ctype_eq_dec (ptype p) e then Ok (le_split 8 (addr p)) else Raise TypeError
  | POINTER _, VNone => Ok (le_split 8 0)
  | LongLongArray n, VArr a =>
      if Nat.eqb (length a) n then Ok (flat_map (le_split 8) a) else Raise TypeError
  | c_void_p, VInt z => Ok (le_split 8 z)
  | c_void_p, VNone => Ok (le_split 8 0)
  | _, _ => Raise TypeError
  end.

(** [x.name = v] for a field [name] of the class of [x].  (For a name that
    is no field Python would attach a plain attribute to the object and
    leave the buffer alone; the module never does that.) *)
Definition setattr (x : instance) (name : string) (v : value) : result instance :=
  match lookup name (layout (itype x)) with
  | None => Ok x
  | Some (off, t) =>
      bs <- encode t v ;;
      Ok {| itype := itype x; buffer := write (buffer x) off bs |}
  end.

(** Pointers to Python-side objects are references.  [Null] is the NULL
    pointer; indexing it raises "NULL pointer access". *)
Inductive ref (A : Type) :=
| Null
| RefTo (a : A).
Arguments Null {A}.
Arguments RefTo {A} a.

(** [p[0]] *)
Definition index0 {A} (p : ref A) : result A :=
  match p with
  | Null => Raise ValueError
  | RefTo a => Ok a
  end.

(** [ctypes.pointer(x)] *)
Definition ctypes_pointer (x : instance) : ref instance := RefTo x.

(** [ctypes.cast(p, ctypes.c_void_p)]: the address of the buffer, its class
    forgotten. *)
Definition cast_to_void_p (p : ref instance) : ref (list byte) :=
  match p with
  | Null => Null
  | RefTo x => RefTo (buffer x)
  end.

(** [ctypes.cast(v, ctypes.POINTER(cls))]: the same bytes seen as a [cls]. *)
Definition cast_to_POINTER (v : ref (list byte)) (cls : Structure) : ref instance :=
  match v with
  | Null => Null
  | RefTo b => RefTo {| itype := cls; buffer := b |}
  end.

(** [ctypes.cast(a, ctypes.POINTER(t))] for an integer [a]: the address is
    the low 64 bits of [a]. *)
Definition cast_int (a : Z) (t : ctype) : pointer :=
  {| ptype := t; addr := a mod two64 |}.

(** [p.contents] only exists for a pointer that is not NULL;
    [ctypes.addressof(p.contents)] is then the address held. *)
Definition contents_address (p : pointer) : result Z :=
  if addr p =? 0 then Raise ValueError else Ok (addr p).

(** ** numpy: element types and arrays *)

(** The scalar element types: those [np.ctypeslib.as_ctypes_type] maps to a
    simple ctypes type, those this module maps to a structure, the two
    types of [ml_dtypes] it knows, and two types with no counterpart at all.
    (Structured and sub-array element types are not modelled.) *)
Inductive np_dtype :=
| bool_ | int8 | int16 | int32 | int64
| uint8 | uint16 | uint32 | uint64
| float16 | float32 | float64
| complex64 | complex128
| bfloat16 | float8_e5m2
| longdouble | object_.

Definition np_dtype_eq_dec (a b : np_dtype) : {a = b} + {a <> b}.
Proof. decide equality. Defined.

Definition itemsize (d : np_dtype) : Z :=
  match d with
  | bool_ | int8 | uint8 | float8_e5m2 => 1
  | int16 | uint16 | float16 | bfloat16 => 2
  | int32 | uint32 | float32 => 4
  | int64 | uint64 | float64 | complex64 | object_ => 8
  | complex128 | longdouble => 16
  end.

(** The element type of an array as numpy sees it: a scalar type, or the
    record type [np.dtype(S)] numpy derives from a ctypes structure [S]
    (the fields with their offsets, and the size of the structure). *)
Inductive array_dtype :=
| Logical (d : np_dtype)
| Struct (fields : list (string * (np_dtype * nat))) (size : nat).

Definition array_dtype_eq_dec (a b : array_dtype) : {a = b} + {a <> b}.
Proof.
  decide equality.
  - apply np_dtype_eq_dec.
  - apply Nat.eq_dec.
  - apply list_eq_dec. intros [s1 [d1 o1]] [s2 [d2 o2]].
    destruct (string_dec s1 s2); [|right; congruence].
    destruct (np_dtype_eq_dec d1 d2); [|right; congruence].
    destruct (Nat.eq_dec o1 o2); [left|right]; congruence.
Defined.

Definition array_itemsize (d : array_dtype) : Z :=
  match d with
  | Logical s => itemsize s
  | Struct _ size => Z.of_nat size
  end.

(** An array is a view of memory: the address of element [0,...,0], the
    extent of each dimension, and the distance in bytes between consecutive
    elements of each dimension. *)
Record ndarray (D : Type) := {
  dtype : D;
  data : Z;            (* nparray.ctypes.data *)
  shape : list Z;
  strides : list Z
}.
Arguments dtype {D} n.
Arguments data {D} n.
Arguments shape {D} n.
Arguments strides {D} n.

Definition ndim {D} (a : ndarray D) : nat := length (shape a).

(** What the module is handed is an array of a scalar type. *)
Definition as_view (a : ndarray np_dtype) : ndarray array_dtype :=
  {| dtype := Logical (dtype a); data := data a;
     shape := shape a; strides := strides a |}.

(** The elements live in a memory the module never touches. *)
Definition memory := Z -> byte.

Fixpoint dot (idx strides : list Z) : Z :=
  match idx, strides with
  | i :: idx', s :: strides' => i * s + dot idx' strides'
  | _, _ => 0
  end.

Definition element_address (a : ndarray array_dtype) (idx : list Z) : Z :=
  data a + dot idx (strides a).

(** [a[idx]]: the element type and the bytes of the element. *)
Definition getitem (m : memory) (a : ndarray array_dtype) (idx : list Z)
  : array_dtype * list byte :=
  (dtype a,
   map (fun k => m (element_address a idx + Z.of_nat k))
       (seq 0 (Z.to_nat (array_itemsize (dtype a))))).

(** [np.ctypeslib.as_ctypes_type]: only the scalar types below have an
    entry in numpy's table. *)
Definition as_ctypes_type (d : np_dtype) : result ctype :=
  match d with
  | bool_ => Ok c_bool
  | int8 => Ok c_byte
  | int16 => Ok c_short
  | int32 => Ok c_int
  | int64 => Ok c_longlong
  | uint8 => Ok c_ubyte
  | uint16 => Ok c_ushort
  | uint32 => Ok c_uint
  | uint64 => Ok c_ulonglong
  | float32 => Ok c_float
  | float64 => Ok c_double
  | _ => Raise NotImplementedError
  end.

Definition dtype_of_simple (t : ctype) : np_dtype :=
  match t with
  | c_bool => bool_
  | c_byte => int8
  | c_short => int16
  | c_int => int32
  | c_longlong => int64
  | c_ubyte => uint8
  | c_ushort => uint16
  | c_uint => uint32
  | c_ulonglong => uint64
  | c_float => float32
  | _ => float64
  end.

(** [np.dtype(t)] for a ctypes type [t]. *)
Definition dtype_of_ctype (t : ctype) : array_dtype :=
  match struct_fields t with
  | None => Logical (dtype_of_simple t)
  | Some fs =>
      let sizes := map (fun f => (sizeof_simple (snd f), sizeof_simple (snd f))) fs in
      Struct (combine (map fst fs)
                      (combine (map (fun f => dtype_of_simple (snd f)) fs)
                               (fst (place 0 sizes))))
             (sizeof t)
  end.

(** Strides of a C-contiguous array. *)
Fixpoint c_contiguous (size : Z) (shape : list Z) : list Z :=
  match shape with
  | [] => []
  | _ :: r => size * fold_right Z.mul 1 r :: c_contiguous size r
  end.

Definition PY_SSIZE_T_MAX : Z := 2 ^ 63 - 1.

(** [dim * t] for a ctypes type [t] of [size] bytes, as the size of the
    array type: ctypes refuses a negative length, and a type of more than
    [PY_SSIZE_T_MAX] bytes. *)
Definition array_type_size (dim size : Z) : result Z :=
  if dim <? 0 then Raise ValueError
  else if negb (size =? 0) && (PY_SSIZE_T_MAX / size <? dim) then Raise OverflowError
  else Ok (dim * size).

(** numpy's [_ctype_ndarray(t, shape)], which nests one array type per
    dimension from the last to the first, as the size of the type built. *)
Fixpoint ctype_ndarray (size : Z) (shape : list Z) : result Z :=
  match shape with
  | [] => Ok size
  | dim :: r => inner <- ctype_ndarray size r ;; array_type_size dim inner
  end.

Definition NPY_MAXDIMS : nat := 64.

Definition NPY_MAX_INTP : Z := 2 ^ 63 - 1.

(** What numpy asks of the shape of any array it creates, whatever the
    strides: at most [NPY_MAXDIMS] dimensions, no negative extent, and the
    extents other than 0 times the element size within [NPY_MAX_INTP]
    bytes.  It raises [ValueError] otherwise. *)
Definition numpy_shape_ok (size : Z) (shape : list Z) : bool :=
  (length shape <=? NPY_MAXDIMS)%nat
  && negb (existsb (fun d => d <? 0) shape)
  && (fold_right (fun d n => if d =? 0 then n else d * n) size shape <=? NPY_MAX_INTP).

(** [np.ctypeslib.as_array(p, shape=shape)] for a pointer [p]: the pointer
    is cast to a pointer to that array type, whose [contents] (there are
    none for NULL) numpy then turns into an array. *)
Definition as_array (p : pointer) (shape : list Z) : result (ndarray array_dtype) :=
  _ <- ctype_ndarray (Z.of_nat (sizeof (ptype p))) shape ;;
  if addr p =? 0 then Raise ValueError
  else if negb (numpy_shape_ok (array_itemsize (dtype_of_ctype (ptype p))) shape)
  then Raise ValueError
  else Ok {| dtype := dtype_of_ctype (ptype p); data := addr p; shape := shape;
             strides := c_contiguous (array_itemsize (dtype_of_ctype (ptype p))) shape |}.

(** [np.lib.stride_tricks.as_strided(x, shape, strides)]: a new array on
    the memory of [x]. *)
Definition as_strided (x : ndarray array_dtype) (shape strides : list Z)
  : result (ndarray array_dtype) :=
  if negb (numpy_shape_ok (array_itemsize (dtype x)) shape) then Raise ValueError
  else if negb (Nat.eqb (length shape) (length strides)) then Raise ValueError
  else Ok {| dtype := dtype x; data := data x; shape := shape; strides := strides |}.

(** [a * k] for an int64 array [a]: the products wrap around. *)
Definition int64_mul (a : list Z) (k : Z) : list Z :=
  map (fun s => c_longlong_value (s * k)) a.

(** [array.view(d)] where [d] is as wide as the elements of [array]: the
    same bytes under another element type.  (A type of another width makes
    numpy resize the last dimension or refuse; [to_numpy] never asks
    for that.) *)
Definition view (a : ndarray array_dtype) (d : np_dtype) : result (ndarray array_dtype) :=
  if array_itemsize (dtype a) =? itemsize d
  then Ok {| dtype := Logical d; data := data a; shape := shape a; strides := strides a |}
  else Raise ValueError.

(** [x // y] *)
Definition floordiv (x y : Z) : result Z :=
  if y =? 0 then Raise ZeroDivisionError else Ok (x / y).

Fixpoint mapM {A B} (f : A -> result B) (l : list A) : result (list B) :=
  match l with
  | [] => Ok []
  | a :: r => b <- f a ;; bs <- mapM f r ;; Ok (b :: bs)
  end.

(** ** The module *)

Definition eq_dtype (a b : np_dtype) : bool :=
  if np_dtype_eq_dec a b then true else false.

(** [array.dtype == S] for a ctypes structure [S]: numpy compares with
    [np.dtype(S)]. *)
Definition dtype_is (d : array_dtype) (t : ctype) : bool :=
  if array_dtype_eq_dec d (dtype_of_ctype t) then true else false.

(** Converts dtype to ctype.  [ml_dtypes] tells whether the import of the
    [ml_dtypes] package succeeded. *)
Definition as_ctype (ml_dtypes : bool) (dtp : np_dtype) : result ctype :=
  if eq_dtype dtp complex128 then Ok C128
  else if eq_dtype dtp complex64 then Ok C64
  else if eq_dtype dtp float16 then Ok F16
  else if ml_dtypes && eq_dtype dtp bfloat16 then Ok BF16
  else if ml_dtypes && eq_dtype dtp float8_e5m2 then Ok F8E5M2
  else as_ctypes_type dtp.

Definition nl : string := String (Ascii.ascii_of_nat 10) EmptyString.

Definition install_hint (name : string) : string :=
  (name ++ " requires the ml_dtypes package, please run:" ++ nl ++ nl
        ++ "pip install ml_dtypes" ++ nl)%string.

(** Converts ctypes array back to numpy dtype array. *)
Definition to_numpy (ml_dtypes : bool) (array : ndarray array_dtype)
  : result (ndarray array_dtype) :=
  if dtype_is (dtype array) C128 then view array complex128
  else if dtype_is (dtype array) C64 then view array complex64
  else if dtype_is (dtype array) F16 then view array float16
  else if dtype_is (dtype array) BF16 && negb ml_dtypes
  then Raise (AssertionError (install_hint "bfloat16"))
  else if dtype_is (dtype array) BF16 then view array bfloat16
  else if dtype_is (dtype array) F8E5M2 && negb ml_dtypes
  then Raise (AssertionError (install_hint "float8_e5m2"))
  else if dtype_is (dtype array) F8E5M2 then view array float8_e5m2
  else Ok array.

(** [ctypes.c_longlong * rank]: the rank must fit a [Py_ssize_t]
    ([OverflowError] otherwise), ctypes refuses a negative one
    ([ValueError]) and an array of more than [PY_SSIZE_T_MAX] bytes
    ([OverflowError]). *)
Definition c_longlong_times (rank : Z) : result ftype :=
  if (rank <? - PY_SSIZE_T_MAX - 1) || (PY_SSIZE_T_MAX <? rank) then Raise OverflowError
  else if rank <? 0 then Raise ValueError
  else if PY_SSIZE_T_MAX / 8 <? rank then Raise OverflowError
  else Ok (LongLongArray (Z.to_nat rank)).

(** The [class] statement: the next free identity goes to the new class.
    A structure whose size does not fit [PY_SSIZE_T_MAX] cannot be built:
    the interpreter reports [MemoryError] (and, for the few sizes that
    wrap around to a small one, stops altogether). *)
Definition new_class (doc : string) (fields : list (string * ftype)) : M Structure :=
  fun s =>
    if PY_SSIZE_T_MAX <? Z.of_nat (struct_size (map extent fields))
    then Raise MemoryError
    else Ok ({| cls_id := s; cls_doc := doc; _fields_ := fields |}, S s).

Definition nd_doc : string :=
  "Builds an empty descriptor for the given rank/dtype, where rank>0.".

Definition zero_d_doc : string :=
  "Builds an empty descriptor for the given dtype, where rank=0.".

Definition make_nd_memref_descriptor (rank : Z) (dtype : ctype) : M Structure :=
  shape_t <~ lift (c_longlong_times rank) ;;
  strides_t <~ lift (c_longlong_times rank) ;;
  new_class nd_doc
    [ ("allocated"%string, LongLong);
      ("aligned"%string, POINTER dtype);
      ("offset"%string, LongLong);
      ("shape"%string, shape_t);
      ("strides"%string, strides_t) ].

Definition make_zero_d_memref_descriptor (dtype : ctype) : M Structure :=
  new_class zero_d_doc
    [ ("allocated"%string, LongLong);
      ("aligned"%string, POINTER dtype);
      ("offset"%string, LongLong) ].

(** Creates a ctype struct for memref descriptor: the fields [rank], a
    [c_longlong], and [descriptor], a [c_void_p]. *)
Record UnrankedMemRefDescriptor := {
  rank : Z;
  descriptor : ref (list byte)
}.

(** [nparray.ctypes.data_as(ctypes.POINTER(ctp))] *)
Definition data_as (nparray : ndarray np_dtype) (ctp : ctype) : pointer :=
  cast_int (data nparray) ctp.

(** Returns a ranked memref descriptor for the given numpy array. *)
Definition get_ranked_memref_descriptor (ml_dtypes : bool) (nparray : ndarray np_dtype)
  : M instance :=
  ctp <~ lift (as_ctype ml_dtypes (dtype nparray)) ;;
  if Nat.eqb (ndim nparray) 0 then
    cls <~ make_zero_d_memref_descriptor ctp ;;
    x <~ ret (new cls) ;;
    x <~ lift (setattr x "allocated" (VInt (data nparray))) ;;
    x <~ lift (setattr x "aligned" (VPtr (data_as nparray ctp))) ;;
    x <~ lift (setattr x "offset" (VInt 0)) ;;
    ret x
  else
    cls <~ make_nd_memref_descriptor (Z.of_nat (ndim nparray)) ctp ;;
    x <~ ret (new cls) ;;
    x <~ lift (setattr x "allocated" (VInt (data nparray))) ;;
    x <~ lift (setattr x "aligned" (VPtr (data_as nparray ctp))) ;;
    x <~ lift (setattr x "offset" (VInt 0)) ;;
    x <~ lift (setattr x "shape" (VArr (c_longlong_array (shape nparray)))) ;;
    elems <~ lift (mapM (fun x => floordiv x (itemsize (dtype nparray)))
                        (strides nparray)) ;;
    x <~ lift (setattr x "strides" (VArr (c_longlong_array elems))) ;;
    ret x.

(** Returns a generic/unranked memref descriptor for the given numpy array. *)
Definition get_unranked_memref_descriptor (ml_dtypes : bool) (nparray : ndarray np_dtype)
  : M UnrankedMemRefDescriptor :=
  d <~ ret {| rank := 0; descriptor := Null |} ;;
  d <~ ret {| rank := c_longlong_value (Z.of_nat (ndim nparray));
              descriptor := descriptor d |} ;;
  x <~ get_ranked_memref_descriptor ml_dtypes nparray ;;
  d <~ ret {| rank := rank d;
              descriptor := cast_to_void_p (ctypes_pointer x) |} ;;
  ret d.

(** Moves the supplied ctypes pointer ahead by `offset` elements. *)
Definition move_aligned_ptr_by_offset (aligned_ptr offset : value) : result pointer :=
  match aligned_ptr with
  | VPtr p =>
      aligned_addr <- contents_address p ;;
      let elem_size := Z.of_nat (sizeof (ptype p)) in
      match offset with
      | VInt k =>
          let shift := k * elem_size in
          Ok (cast_int (aligned_addr + shift) (ptype p))
      | _ => Raise TypeError
      end
  | _ => Raise (AttributeError "contents")
  end.

(** A ctypes array of [c_longlong] seen as a sequence of integers. *)
Definition as_sequence (v : value) : result (list Z) :=
  match v with
  | VArr a => Ok a
  | _ => Raise TypeError
  end.

(** [p[0].name] *)
Definition field (p : ref instance) (name : string) : result value :=
  d <- index0 p ;; getattr d name.

(** Converts unranked memrefs to numpy arrays. *)
Definition unranked_memref_to_numpy (ml_dtypes : bool)
    (unranked_memref : ref UnrankedMemRefDescriptor) (np_dtype : np_dtype)
  : M (ndarray array_dtype) :=
  ctp <~ lift (as_ctype ml_dtypes np_dtype) ;;
  u <~ lift (index0 unranked_memref) ;;
  descriptor_t <~ make_nd_memref_descriptor (rank u) ctp ;;
  u' <~ lift (index0 unranked_memref) ;;
  val <~ ret (cast_to_POINTER (descriptor u') descriptor_t) ;;
  lift (aligned <- field val "aligned" ;;
        offset <- field val "offset" ;;
        content_ptr <- move_aligned_ptr_by_offset aligned offset ;;
        shape0 <- field val "shape" ;;
        shape1 <- as_sequence shape0 ;;
        np_arr <- as_array content_ptr shape1 ;;
        shape2 <- field val "shape" ;;
        shape3 <- as_sequence shape2 ;;
        strides0 <- field val "strides" ;;
        strides1 <- as_sequence strides0 ;;
        strided_arr <- as_strided np_arr shape3
                         (int64_mul strides1 (array_itemsize (dtype np_arr))) ;;
        to_numpy ml_dtypes strided_arr).

(** Converts ranked memrefs to numpy arrays. *)
Definition ranked_memref_to_numpy (ml_dtypes : bool) (ranked_memref : ref instance)
  : result (ndarray array_dtype) :=
  aligned <- field ranked_memref "aligned" ;;
  offset <- field ranked_memref "offset" ;;
  content_ptr <- move_aligned_ptr_by_offset aligned offset ;;
  shape0 <- field ranked_memref "shape" ;;
  shape1 <- as_sequence shape0 ;;
  np_arr <- as_array content_ptr shape1 ;;
  shape2 <- field ranked_memref "shape" ;;
  shape3 <- as_sequence shape2 ;;
  strides0 <- field ranked_memref "strides" ;;
  strides1 <- as_sequence strides0 ;;
  strided_arr <- as_strided np_arr shape3
                   (int64_mul strides1 (array_itemsize (dtype np_arr))) ;;
  to_numpy ml_dtypes strided_arr.

(** ** The statements the properties are about *)

(** The invariants of an array numpy hands over: a buffer that is not at
    address 0, at most 64 dimensions, one stride per dimension, extents and
    strides that fit the signed 64-bit [npy_intp]. *)
Definition ndarray_ok (a : ndarray np_dtype) : bool :=
  (0 <? data a) && (data a <? two64)
  && (ndim a <=? 64)%nat
  && Nat.eqb (length (strides a)) (length (shape a))
  && forallb (fun d => (0 <=? d) && (d <? 2 ^ 63)) (shape a)
  && forallb (fun s => (- 2 ^ 63 <=? s) && (s <? 2 ^ 63)) (strides a).

(** The extents describe a block of memory that ctypes can give a type,
    at most [PY_SSIZE_T_MAX] bytes, and that numpy accepts as the shape of
    an array ([numpy_shape_ok]; the shape of every array numpy has built
    passes it). *)
Definition addressable (a : ndarray np_dtype) : bool :=
  match ctype_ndarray (itemsize (dtype a)) (shape a) with
  | Ok _ => numpy_shape_ok (itemsize (dtype a)) (shape a)
  | Raise _ => false
  end.

(** Every byte stride is a whole number of elements. *)
Definition element_aligned (a : ndarray np_dtype) : bool :=
  forallb (fun s => s mod itemsize (dtype a) =? 0) (strides a).

(** Array to ranked descriptor and back, through a pointer to the
    descriptor as the reverse conversion expects. *)
Definition round_trip (ml_dtypes : bool) (a : ndarray np_dtype)
  : M (ndarray array_dtype) :=
  x <~ get_ranked_memref_descriptor ml_dtypes a ;;
  lift (ranked_memref_to_numpy ml_dtypes (ctypes_pointer x)).

(** Array to unranked descriptor and back. *)
Definition unranked_round_trip (ml_dtypes : bool) (a : ndarray np_dtype)
  : M (ndarray array_dtype) :=
  d <~ get_unranked_memref_descriptor ml_dtypes a ;;
  unranked_memref_to_numpy ml_dtypes (RefTo d) (dtype a).

(** A view has the shape, the byte strides and the elements of an array. *)
Definition same_view (v : ndarray array_dtype) (a : ndarray np_dtype) : Prop :=
  shape v = shape a /\
  strides v = strides a /\
  forall (m : memory) (idx : list Z), getitem m v idx = getitem m (as_view a) idx.

Definition round_trip_identity (ml_dtypes : bool) (a : ndarray np_dtype) : Prop :=
  forall s, exists v, value_of (round_trip ml_dtypes a s) = Ok v /\ same_view v a.

(** The element-unit strides stored in the descriptor of [a], times the
    element size, are the byte strides of [a], dimension by dimension. *)
Definition stride_unit_inversion (ml_dtypes : bool) (a : ndarray np_dtype) : Prop :=
  forall s, exists x s',
    get_ranked_memref_descriptor ml_dtypes a s = Ok (x, s') /\
    forall i b, nth_error (strides a) i = Some b ->
      exists elems e,
        getattr x "strides" = Ok (VArr elems) /\
        nth_error elems i = Some e /\
        e * itemsize (dtype a) = b.

(** The pointer returned is [k] elements past [p], as an exact address. *)
Definition offset_scaling (p : pointer) (k : Z) : Prop :=
  exists q,
    move_aligned_ptr_by_offset (VPtr p) (VInt k) = Ok q /\
    addr q = addr p + k * Z.of_nat (sizeof (ptype p)).

(** Without [ml_dtypes], both mappings fail for the element type [d] and
    its structure [t] with the error that asks for the package. *)
Definition missing_registry_failure (d : np_dtype) (t : ctype) : Prop :=
  (exists msg, as_ctype false d = Raise (AssertionError msg)) /\
  (forall a sh st, exists msg,
      to_numpy false {| dtype := dtype_of_ctype t; data := a;
                        shape := sh; strides := st |}
      = Raise (AssertionError msg)).

(** A call of [make_nd_memref_descriptor] returns a class with the five
    fields of a ranked descriptor, in their order. *)
Definition descriptor_abi (rank : Z) (dtype : ctype) : Prop :=
  forall s, exists cls,
    make_nd_memref_descriptor rank dtype s = Ok (cls, S s) /\
    _fields_ cls =
      [ ("allocated"%string, LongLong);
        ("aligned"%string, POINTER dtype);
        ("offset"%string, LongLong);
        ("shape"%string, LongLongArray (Z.to_nat rank));
        ("strides"%string, LongLongArray (Z.to_nat rank)) ].

(** Two classes are the same structure type: the same field names in the
    same order with the same types, hence the same offsets and sizes. *)
Definition same_struct_type (c1 c2 : Structure) : Prop :=
  _fields_ c1 = _fields_ c2 /\
  layout c1 = layout c2 /\
  sizeof_struct c1 = sizeof_struct c2.

(** The field of an int32 column of a packed record array
    [[('a', int8), ('b', int32)]]: three elements, five bytes apart. *)
Definition packed_column : ndarray np_dtype :=
  {| dtype := int32; data := 4096; shape := [3]; strides := [5] |}.

(** A 0-dimensional int32 array. *)
Definition scalar_array : ndarray np_dtype :=
  {| dtype := int32; data := 4096; shape := []; strides := [] |}.

(** The 2x3 row-major array of 8-byte floats of the specification. *)
Definition matrix_2x3 : ndarray np_dtype :=
  {| dtype := float64; data := 4096; shape := [2; 3]; strides := [24; 8] |}.

(** The fields [make_nd_memref_descriptor] is to give a class. *)
Definition nd_fields (r : nat) (t : ctype) : list (string * ftype) :=
  [ ("allocated"%string, LongLong);
    ("aligned"%string, POINTER t);
    ("offset"%string, LongLong);
    ("shape"%string, LongLongArray r);
    ("strides"%string, LongLongArray r) ].

Definition zero_d_fields (t : ctype) : list (string * ftype) :=
  [ ("allocated"%string, LongLong);
    ("aligned"%string, POINTER t);
    ("offset"%string, LongLong) ].

(** The buffer after the five assignments of the forward conversion. *)
Definition filled (r : nat) (a p o : Z) (sh st : list Z) : list byte :=
  write (write (write (write (write (repeat Byte.x00 (24 + 16 * r))
    0 (le_split 8 a)) 8 (le_split 8 p)) 16 (le_split 8 o))
    24 (flat_map (le_split 8) sh)) (24 + 8 * r) (flat_map (le_split 8) st).

(** The buffer after the three assignments made for a 0-dimensional array. *)
Definition filled_zero_d (a p o : Z) : list byte :=
  write (write (write (repeat Byte.x00 24)
    0 (le_split 8 a)) 8 (le_split 8 p)) 16 (le_split 8 o).

(** ** Bytes *)

Section Bytes.

Variables (buf : list byte) (off : nat) (bs : list byte).
Hypothesis inside : (off + length bs <= length buf)%nat.

Lemma length_write : length (write buf off bs) = length buf.
Proof.
  unfold write. rewrite !length_app, length_firstn, length_skipn. lia.
Qed.

Lemma nth_error_write (i : nat) :
  nth_error (write buf off bs) i =
  if (i <? off)%nat then nth_error buf i
  else if (i <? off + length bs)%nat then nth_error bs (i - off)
  else nth_error buf i.
Proof.
  unfold write.
  destruct (Nat.ltb_spec i off) as [Hlt|Hge].
  - rewrite nth_error_app1 by (rewrite length_firstn; lia).
    rewrite nth_error_firstn.
    destruct (Nat.ltb_spec i off); [reflexivity|lia].
  - rewrite nth_error_app2 by (rewrite length_firstn; lia).
    rewrite length_firstn, Nat.min_l by lia.
    destruct (Nat.ltb_spec i (off + length bs)) as [Hin|Hout].
    + rewrite nth_error_app1 by lia. reflexivity.
    + rewrite nth_error_app2 by lia.
      rewrite nth_error_skipn. f_equal. lia.
Qed.

Lemma read_write_same : read (write buf off bs) off (length bs) = Ok bs.
Proof.
  unfold read. rewrite length_write.
  destruct (Nat.leb_spec (off + length bs) (length buf)); [|lia].
  f_equal. apply nth_error_ext. intro i.
  rewrite nth_error_firstn, nth_error_skipn, nth_error_write.
  destruct (Nat.ltb_spec i (length bs)) as [Hi|Hi].
  - destruct (Nat.ltb_spec (off + i) off); [lia|].
    destruct (Nat.ltb_spec (off + i) (off + length bs)); [|lia].
    f_equal. lia.
  - symmetry. apply nth_error_None. lia.
Qed.

Lemma read_write_other (off' len' : nat) :
  (off' + len' <= off \/ off + length bs <= off')%nat ->
  read (write buf off bs) off' len' = read buf off' len'.
Proof.
  intro Hd. unfold read. rewrite length_write.
  destruct (Nat.leb_spec (off' + len') (length buf)); [|reflexivity].
  f_equal. apply nth_error_ext. intro i.
  rewrite !nth_error_firstn, !nth_error_skipn, nth_error_write.
  destruct (Nat.ltb_spec i len'); [|reflexivity].
  destruct (Nat.ltb_spec (off' + i) off); [reflexivity|].
  destruct (Nat.ltb_spec (off' + i) (off + length bs)); [lia|reflexivity].
Qed.

End Bytes.

(** ** 64-bit integers in a buffer *)

Lemma two64_eq : two64 = 18446744073709551616.
Proof. reflexivity. Qed.

Lemma c_longlong_value_small (z : Z) :
  - 2 ^ 63 <= z < 2 ^ 63 -> c_longlong_value z = z.
Proof.
  intro Hz. unfold c_longlong_value. rewrite two64_eq.
  change (2 ^ 63) with 9223372036854775808 in *.
  destruct (Z.ltb_spec (z mod 18446744073709551616) 9223372036854775808) as [H|H];
    pose proof (Z.mod_pos_bound z 18446744073709551616 ltac:(lia));
    pose proof (Z.div_mod z 18446744073709551616 ltac:(lia)); lia.
Qed.

Lemma c_longlong_value_range (z : Z) :
  - 2 ^ 63 <= c_longlong_value z < 2 ^ 63.
Proof.
  unfold c_longlong_value. rewrite two64_eq.
  change (2 ^ 63) with 9223372036854775808.
  pose proof (Z.mod_pos_bound z 18446744073709551616 ltac:(lia)).
  destruct (Z.ltb_spec (z mod 18446744073709551616) 9223372036854775808); lia.
Qed.

Lemma c_longlong_value_mod (z : Z) :
  c_longlong_value (z mod two64) = c_longlong_value z.
Proof.
  unfold c_longlong_value. rewrite Z.mod_mod; [reflexivity|].
  rewrite two64_eq. lia.
Qed.

(** The 64 bits of the stored value are those of the integer assigned. *)
Lemma c_longlong_value_bits (z : Z) :
  c_longlong_value z mod two64 = z mod two64.
Proof.
  unfold c_longlong_value.
  destruct (Z.ltb_spec (z mod two64) (2 ^ 63)).
  - apply Z.mod_mod. rewrite two64_eq. lia.
  - rewrite <- (Z.mod_mod z two64) at 2 by (rewrite two64_eq; lia).
    replace (z mod two64 - two64) with (z mod two64 + (-1) * two64) by ring.
    apply Z.mod_add. rewrite two64_eq. lia.
Qed.

Lemma le_combine_le_split_8 (z : Z) : le_combine (le_split 8 z) = z mod two64.
Proof. rewrite le_combine_split. reflexivity. Qed.

Lemma length_words_bytes (a : list Z) :
  length (flat_map (le_split 8) a) = (8 * length a)%nat.
Proof.
  induction a as [|z a IH]; [reflexivity|].
  cbn [flat_map length]. rewrite length_app, length_le_split, IH. lia.
Qed.

Lemma words_flat_map (a : list Z) :
  words (length a) (flat_map (le_split 8) a) = map c_longlong_value a.
Proof.
  induction a as [|z a IH]; [reflexivity|].
  cbn [flat_map length words map].
  rewrite firstn_app, length_le_split, Nat.sub_diag, firstn_O, app_nil_r.
  rewrite firstn_all2 by (rewrite length_le_split; lia).
  rewrite skipn_app, length_le_split, Nat.sub_diag, skipn_O.
  rewrite skipn_all2 by (rewrite length_le_split; lia).
  rewrite app_nil_l, IH, le_combine_le_split_8, c_longlong_value_mod.
  reflexivity.
Qed.

Lemma map_c_longlong_value_small (a : list Z) :
  Forall (fun z => - 2 ^ 63 <= z < 2 ^ 63) a -> map c_longlong_value a = a.
Proof.
  induction 1 as [|z a Hz _ IH]; [reflexivity|].
  cbn [map]. rewrite IH, c_longlong_value_small by assumption. reflexivity.
Qed.

Lemma encode_length (t : ftype) (v : value) (bs : list byte) :
  encode t v = Ok bs -> length bs = sizeof_field t.
Proof.
  destruct t, v; cbn [encode sizeof_field]; try discriminate;
    try (intro H; injection H as <-; apply length_le_split).
  - destruct (ctype_eq_dec (ptype p) t); [|discriminate].
    intro H; injection H as <-; apply length_le_split.
  - destruct (Nat.eqb_spec (length a) n) as [<-|]; [|discriminate].
    intro H; injection H as <-; apply length_words_bytes.
Qed.

(** ** Fields of an instance *)

Lemma setattr_field (x : instance) (name : string) (v : value)
    (off : nat) (t : ftype) (bs : list byte) :
  lookup name (layout (itype x)) = Some (off, t) ->
  encode t v = Ok bs ->
  setattr x name v = Ok {| itype := itype x; buffer := write (buffer x) off bs |}.
Proof.
  intros Hl He. unfold setattr. rewrite Hl, He. reflexivity.
Qed.

Lemma getattr_write_same (cls : Structure) (buf : list byte) (name : string)
    (off : nat) (t : ftype) (bs : list byte) :
  lookup name (layout cls) = Some (off, t) ->
  length bs = sizeof_field t ->
  (off + length bs <= length buf)%nat ->
  getattr {| itype := cls; buffer := write buf off bs |} name = Ok (decode t bs).
Proof.
  intros Hl Hlen Hin. unfold getattr. cbn [itype buffer].
  rewrite Hl, <- Hlen, read_write_same by assumption. reflexivity.
Qed.

Lemma getattr_write_other (cls : Structure) (buf : list byte) (name : string)
    (off' : nat) (t' : ftype) (off : nat) (bs : list byte) :
  lookup name (layout cls) = Some (off', t') ->
  (off + length bs <= length buf)%nat ->
  (off' + sizeof_field t' <= off \/ off + length bs <= off')%nat ->
  getattr {| itype := cls; buffer := write buf off bs |} name =
  getattr {| itype := cls; buffer := buf |} name.
Proof.
  intros Hl Hin Hd. unfold getattr. cbn [itype buffer].
  rewrite Hl, read_write_other by assumption. reflexivity.
Qed.

(** Reading a field only depends on the fields of the class, not on which
    class object it is. *)
Lemma getattr_same_fields (c1 c2 : Structure) (buf : list byte) (name : string) :
  _fields_ c1 = _fields_ c2 ->
  getattr {| itype := c1; buffer := buf |} name =
  getattr {| itype := c2; buffer := buf |} name.
Proof.
  intro H. unfold getattr, layout. cbn [itype buffer]. rewrite H. reflexivity.
Qed.

(** ** Layout of the descriptor classes *)

Lemma align_up_8 (n : nat) : align_up (8 * n) 8 = (8 * n)%nat.
Proof.
  unfold align_up. replace (8 * n + 8 - 1)%nat with (7 + n * 8)%nat by lia.
  rewrite Nat.div_add by lia. change (7 / 8)%nat with 0%nat. lia.
Qed.

Lemma place_8 (off sz : nat) (r : list (nat * nat)) :
  place (8 * off) ((8 * sz, 8) :: r)%nat =
  (8 * off :: fst (place (8 * (off + sz)) r), snd (place (8 * (off + sz)) r))%nat.
Proof.
  cbn [place]. rewrite align_up_8.
  replace (8 * off + 8 * sz)%nat with (8 * (off + sz))%nat by lia.
  destruct (place (8 * (off + sz)) r). reflexivity.
Qed.

Lemma place_nd (r : nat) (t : ctype) :
  place 0 (map extent (nd_fields r t)) =
  ([0; 8; 16; 24; 24 + 8 * r], 24 + 16 * r)%nat.
Proof.
  change (map extent (nd_fields r t))
    with [(8 * 1, 8); (8 * 1, 8); (8 * 1, 8); (8 * r, 8); (8 * r, 8)]%nat.
  change 0%nat with (8 * 0)%nat at 1.
  rewrite !place_8. cbn [place fst snd].
  apply f_equal2; [|lia].
  repeat (apply f_equal2; [lia|]). reflexivity.
Qed.

Lemma layout_nd (cls : Structure) (r : nat) (t : ctype) :
  _fields_ cls = nd_fields r t ->
  layout cls =
  [ ("allocated"%string, (0, LongLong));
    ("aligned"%string, (8, POINTER t));
    ("offset"%string, (16, LongLong));
    ("shape"%string, (24, LongLongArray r));
    ("strides"%string, (24 + 8 * r, LongLongArray r)) ]%nat.
Proof.
  intro H. unfold layout. rewrite H, place_nd. reflexivity.
Qed.

Lemma sizeof_nd (cls : Structure) (r : nat) (t : ctype) :
  _fields_ cls = nd_fields r t ->
  sizeof_struct cls = (24 + 16 * r)%nat.
Proof.
  intro H. unfold sizeof_struct, struct_size. rewrite H, place_nd.
  cbn [snd]. change (struct_align (map extent (nd_fields r t))) with 8%nat.
  replace (24 + 16 * r)%nat with (8 * (3 + 2 * r))%nat by lia.
  apply align_up_8.
Qed.

Lemma layout_zero_d (cls : Structure) (t : ctype) :
  _fields_ cls = zero_d_fields t ->
  layout cls =
  [ ("allocated"%string, (0, LongLong));
    ("aligned"%string, (8, POINTER t));
    ("offset"%string, (16, LongLong)) ]%nat.
Proof. intro H. unfold layout. rewrite H. reflexivity. Qed.

Lemma sizeof_zero_d (cls : Structure) (t : ctype) :
  _fields_ cls = zero_d_fields t -> sizeof_struct cls = 24%nat.
Proof. intro H. unfold sizeof_struct. rewrite H. reflexivity. Qed.

Lemma c_longlong_times_ok (r : nat) :
  Z.of_nat r <= 2 ^ 59 - 2 ->
  c_longlong_times (Z.of_nat r) = Ok (LongLongArray r).
Proof.
  intro Hr. unfold c_longlong_times.
  change (PY_SSIZE_T_MAX / 8) with 1152921504606846975.
  change (- PY_SSIZE_T_MAX - 1) with (-9223372036854775808).
  change PY_SSIZE_T_MAX with 9223372036854775807.
  change (2 ^ 59 - 2) with 576460752303423486 in Hr.
  destruct (Z.ltb_spec (Z.of_nat r) (-9223372036854775808)); [lia|].
  destruct (Z.ltb_spec 9223372036854775807 (Z.of_nat r)); [lia|].
  cbn [orb].
  destruct (Z.ltb_spec (Z.of_nat r) 0); [lia|].
  destruct (Z.ltb_spec 1152921504606846975 (Z.of_nat r)); [lia|].
  rewrite Nat2Z.id. reflexivity.
Qed.

Lemma c_longlong_times_negative (rank : Z) :
  - 2 ^ 63 <= rank < 0 -> c_longlong_times rank = Raise ValueError.
Proof.
  intro Hr. unfold c_longlong_times.
  change (- PY_SSIZE_T_MAX - 1) with (- 2 ^ 63).
  change PY_SSIZE_T_MAX with (2 ^ 63 - 1).
  destruct (Z.ltb_spec rank (- 2 ^ 63)); [lia|].
  destruct (Z.ltb_spec (2 ^ 63 - 1) rank); [lia|].
  cbn [orb]. destruct (Z.ltb_spec rank 0); [reflexivity|lia].
Qed.

Lemma c_longlong_times_too_large (rank : Z) :
  2 ^ 60 <= rank -> c_longlong_times rank = Raise OverflowError.
Proof.
  intro Hr. unfold c_longlong_times.
  change (PY_SSIZE_T_MAX / 8) with (2 ^ 60 - 1).
  destruct ((rank <? - PY_SSIZE_T_MAX - 1) || (PY_SSIZE_T_MAX <? rank));
    [reflexivity|].
  destruct (Z.ltb_spec rank 0); [lia|].
  destruct (Z.ltb_spec (2 ^ 60 - 1) rank); [reflexivity|lia].
Qed.

Lemma new_class_nd (doc : string) (r : nat) (t : ctype) (s : nat) :
  Z.of_nat r <= 2 ^ 59 - 2 ->
  new_class doc (nd_fields r t) s =
  Ok ({| cls_id := s; cls_doc := doc; _fields_ := nd_fields r t |}, S s).
Proof.
  intro Hr. unfold new_class.
  pose proof (sizeof_nd {| cls_id := s; cls_doc := doc; _fields_ := nd_fields r t |}
                r t eq_refl) as Hs.
  unfold sizeof_struct in Hs. cbn [_fields_] in Hs. rewrite Hs.
  change PY_SSIZE_T_MAX with 9223372036854775807.
  change (2 ^ 59 - 2) with 576460752303423486 in Hr.
  destruct (Z.ltb_spec 9223372036854775807 (Z.of_nat (24 + 16 * r))); [lia|reflexivity].
Qed.

Lemma small_rank (r : nat) : (r <= 64)%nat -> Z.of_nat r <= 2 ^ 59 - 2.
Proof. intro H. change (2 ^ 59 - 2) with 576460752303423486. lia. Qed.

Lemma make_nd_memref_descriptor_ok (r : nat) (t : ctype) (s : nat) :
  Z.of_nat r <= 2 ^ 59 - 2 ->
  make_nd_memref_descriptor (Z.of_nat r) t s =
  Ok ({| cls_id := s;
         cls_doc := nd_doc;
         _fields_ := nd_fields r t |}, S s).
Proof.
  intro Hr. unfold make_nd_memref_descriptor, bindM, lift.
  rewrite (c_longlong_times_ok r Hr).
  apply (new_class_nd nd_doc r t s Hr).
Qed.

(** ** The descriptor of an array *)

Lemma bindM_lift {A B} (r : result A) (a : A) (k : A -> M B) (s : nat) :
  r = Ok a -> bindM (lift r) k s = k a s.
Proof. intros ->. reflexivity. Qed.

Lemma itemsize_pos (d : np_dtype) : 0 < itemsize d.
Proof. destruct d; reflexivity. Qed.

Lemma mapM_floordiv (k : Z) (l : list Z) :
  k <> 0 -> mapM (fun x => floordiv x k) l = Ok (map (fun x => x / k) l).
Proof.
  intro Hk. induction l as [|x l IH]; [reflexivity|].
  cbn [mapM map]. unfold floordiv at 1.
  destruct (Z.eqb_spec k 0); [contradiction|].
  cbn [bind]. rewrite IH. reflexivity.
Qed.

Ltac buffer_lengths :=
  repeat first
    [ rewrite length_write
    | rewrite repeat_length
    | rewrite length_le_split
    | rewrite length_words_bytes ];
  cbn [sizeof_field]; try lia.

Section Filled.

Variables (cls : Structure) (r : nat) (t : ctype).
Variables (a p o : Z) (sh st : list Z).
Hypothesis fields_cls : _fields_ cls = nd_fields r t.
Hypothesis length_sh : length sh = r.
Hypothesis length_st : length st = r.

Lemma filled_allocated : getattr {| itype := cls; buffer := filled r a p o sh st |} "allocated" = Ok (VInt (c_longlong_value a)).
Proof.
  unfold filled.
  do 4 (erewrite getattr_write_other;
        [ | rewrite (layout_nd cls r t fields_cls); reflexivity | buffer_lengths.. ]).
  erewrite getattr_write_same;
    [ | rewrite (layout_nd cls r t fields_cls); reflexivity | buffer_lengths.. ].
  cbn [decode]. rewrite le_combine_le_split_8, c_longlong_value_mod. reflexivity.
Qed.

Lemma filled_aligned :
  getattr {| itype := cls; buffer := filled r a p o sh st |} "aligned" = Ok (VPtr {| ptype := t; addr := p mod two64 |}).
Proof.
  unfold filled.
  do 3 (erewrite getattr_write_other;
        [ | rewrite (layout_nd cls r t fields_cls); reflexivity | buffer_lengths.. ]).
  erewrite getattr_write_same;
    [ | rewrite (layout_nd cls r t fields_cls); reflexivity | buffer_lengths.. ].
  cbn [decode]. rewrite le_combine_le_split_8. reflexivity.
Qed.

Lemma filled_offset : getattr {| itype := cls; buffer := filled r a p o sh st |} "offset" = Ok (VInt (c_longlong_value o)).
Proof.
  unfold filled.
  do 2 (erewrite getattr_write_other;
        [ | rewrite (layout_nd cls r t fields_cls); reflexivity | buffer_lengths.. ]).
  erewrite getattr_write_same;
    [ | rewrite (layout_nd cls r t fields_cls); reflexivity | buffer_lengths.. ].
  cbn [decode]. rewrite le_combine_le_split_8, c_longlong_value_mod. reflexivity.
Qed.

Lemma filled_shape : getattr {| itype := cls; buffer := filled r a p o sh st |} "shape" = Ok (VArr (map c_longlong_value sh)).
Proof.
  unfold filled.
  erewrite getattr_write_other;
    [ | rewrite (layout_nd cls r t fields_cls); reflexivity | buffer_lengths.. ].
  erewrite getattr_write_same;
    [ | rewrite (layout_nd cls r t fields_cls); reflexivity | buffer_lengths.. ].
  cbn [decode]. rewrite <- length_sh at 1. rewrite words_flat_map. reflexivity.
Qed.

Lemma filled_strides : getattr {| itype := cls; buffer := filled r a p o sh st |} "strides" = Ok (VArr (map c_longlong_value st)).
Proof.
  unfold filled.
  erewrite getattr_write_same;
    [ | rewrite (layout_nd cls r t fields_cls); reflexivity | buffer_lengths.. ].
  cbn [decode]. rewrite <- length_st at 1. rewrite words_flat_map. reflexivity.
Qed.

End Filled.

Lemma bindM_make_nd {B} (r : nat) (t : ctype) (k : Structure -> M B) (s : nat) :
  Z.of_nat r <= 2 ^ 59 - 2 ->
  bindM (make_nd_memref_descriptor (Z.of_nat r) t) k s =
  k {| cls_id := s; cls_doc := nd_doc; _fields_ := nd_fields r t |} (S s).
Proof.
  intro Hr. unfold bindM at 1. rewrite (make_nd_memref_descriptor_ok r t s Hr).
  reflexivity.
Qed.

Lemma length_c_longlong_array (l : list Z) : length (c_longlong_array l) = length l.
Proof. apply length_map. Qed.

Lemma encode_pointer (a : Z) (t : ctype) :
  encode (POINTER t) (VPtr (cast_int a t)) = Ok (le_split 8 (a mod two64)).
Proof.
  cbn [encode cast_int ptype addr].
  destruct (ctype_eq_dec t t); [reflexivity|contradiction].
Qed.

Lemma encode_array (n : nat) (a : list Z) :
  length a = n -> encode (LongLongArray n) (VArr a) = Ok (flat_map (le_split 8) a).
Proof.
  intro H. cbn [encode]. destruct (Nat.eqb_spec (length a) n); [reflexivity|contradiction].
Qed.

(** The descriptor of an array of rank at least 1, byte for byte. *)
Lemma get_ranked_nd (ml : bool) (A : ndarray np_dtype) (ctp : ctype) (s : nat) :
  as_ctype ml (dtype A) = Ok ctp ->
  ndim A <> 0%nat ->
  length (strides A) = length (shape A) ->
  (ndim A <= 64)%nat ->
  get_ranked_memref_descriptor ml A s =
  Ok ({| itype := {| cls_id := s; cls_doc := nd_doc;
                     _fields_ := nd_fields (ndim A) ctp |};
         buffer := filled (ndim A) (data A) (data A mod two64) 0
                     (c_longlong_array (shape A))
                     (c_longlong_array
                        (map (fun b => b / itemsize (dtype A)) (strides A))) |},
      S s).
Proof.
  intros Hc Hr Hs Hn. unfold get_ranked_memref_descriptor.
  rewrite (bindM_lift _ _ _ _ Hc).
  destruct (Nat.eqb_spec (ndim A) 0) as [E|_]; [contradiction|].
  rewrite bindM_make_nd by (apply small_rank; exact Hn).
  set (cls := {| cls_id := s; cls_doc := nd_doc; _fields_ := nd_fields (ndim A) ctp |}).
  pose proof (layout_nd cls (ndim A) ctp eq_refl) as Hl.
  unfold bindM at 1, ret at 1.
  erewrite bindM_lift
    by (eapply setattr_field; [cbn [new itype]; rewrite Hl|]; reflexivity).
  erewrite bindM_lift
    by (eapply setattr_field;
        [cbn [new itype]; rewrite Hl; reflexivity|apply encode_pointer]).
  erewrite bindM_lift
    by (eapply setattr_field; [cbn [new itype]; rewrite Hl|]; reflexivity).
  erewrite bindM_lift
    by (eapply setattr_field;
        [cbn [new itype]; rewrite Hl; reflexivity
        |apply encode_array, length_c_longlong_array]).
  erewrite bindM_lift
    by (apply mapM_floordiv; pose proof (itemsize_pos (dtype A)); lia).
  erewrite bindM_lift
    by (eapply setattr_field;
        [cbn [new itype]; rewrite Hl; reflexivity
        |apply encode_array; rewrite length_c_longlong_array, length_map; exact Hs]).
  unfold ret. cbn [itype buffer new]. unfold filled.
  rewrite (sizeof_nd cls (ndim A) ctp eq_refl). reflexivity.
Qed.

(** ** The element types the forward mapping accepts *)

Lemma as_ctype_sizeof (ml : bool) (d : np_dtype) (ctp : ctype) :
  as_ctype ml d = Ok ctp -> Z.of_nat (sizeof ctp) = itemsize d.
Proof.
  destruct d, ml; cbn; intro H; try discriminate; injection H as <-; reflexivity.
Qed.

Lemma as_ctype_itemsize (ml : bool) (d : np_dtype) (ctp : ctype) :
  as_ctype ml d = Ok ctp -> array_itemsize (dtype_of_ctype ctp) = itemsize d.
Proof.
  destruct d, ml; cbn; intro H; try discriminate; injection H as <-; reflexivity.
Qed.

(** The reverse mapping undoes the forward one. *)
Lemma to_numpy_as_ctype (ml : bool) (d : np_dtype) (ctp : ctype)
    (a : Z) (sh st : list Z) :
  as_ctype ml d = Ok ctp ->
  to_numpy ml {| dtype := dtype_of_ctype ctp; data := a; shape := sh; strides := st |} =
  Ok {| dtype := Logical d; data := a; shape := sh; strides := st |}.
Proof.
  destruct d, ml; cbn; intro H; try discriminate; injection H as <-; reflexivity.
Qed.

Lemma no_negative_extent (sh : list Z) :
  Forall (fun d => 0 <= d < 2 ^ 63) sh -> existsb (fun d => d <? 0) sh = false.
Proof.
  induction 1 as [|d sh Hd _ IH]; [reflexivity|].
  cbn [existsb]. rewrite IH. destruct (Z.ltb_spec d 0); [lia|reflexivity].
Qed.

Lemma addressable_spec (A : ndarray np_dtype) :
  addressable A = true ->
  (exists total, ctype_ndarray (itemsize (dtype A)) (shape A) = Ok total) /\
  numpy_shape_ok (itemsize (dtype A)) (shape A) = true.
Proof.
  unfold addressable.
  destruct (ctype_ndarray (itemsize (dtype A)) (shape A)) as [total|e];
    [|discriminate].
  intro H. split; [exists total; reflexivity|exact H].
Qed.

Lemma numpy_shape_ok_scalar (d : np_dtype) : numpy_shape_ok (itemsize d) [] = true.
Proof. destruct d; reflexivity. Qed.

Lemma extents_small (sh : list Z) :
  Forall (fun d => 0 <= d < 2 ^ 63) sh -> Forall (fun d => - 2 ^ 63 <= d < 2 ^ 63) sh.
Proof. apply Forall_impl. intros d Hd. lia. Qed.

(** ** The reverse conversion on a descriptor *)

Lemma ranked_memref_to_numpy_filled (ml : bool) (cls : Structure) (r : nat)
    (d : np_dtype) (ctp : ctype) (al p : Z) (sh st : list Z) :
  _fields_ cls = nd_fields r ctp ->
  as_ctype ml d = Ok ctp ->
  length sh = r ->
  length st = r ->
  p mod two64 <> 0 ->
  Forall (fun d => 0 <= d < 2 ^ 63) sh ->
  Forall (fun s => - 2 ^ 63 <= s < 2 ^ 63) st ->
  (exists total, ctype_ndarray (itemsize d) sh = Ok total) ->
  numpy_shape_ok (itemsize d) sh = true ->
  ranked_memref_to_numpy ml
    (RefTo {| itype := cls; buffer := filled r al p 0 sh st |}) =
  Ok {| dtype := Logical d; data := p mod two64; shape := sh;
        strides := int64_mul st (itemsize d) |}.
Proof.
  intros Hf Hc Hsh Hst Hp Fsh Fst [total Ht] Hnp.
  unfold ranked_memref_to_numpy, field. cbn [index0 bind].
  rewrite (filled_aligned cls r ctp al p 0 sh st Hf Hsh Hst).
  rewrite (filled_offset cls r ctp al p 0 sh st Hf Hsh Hst).
  rewrite (filled_shape cls r ctp al p 0 sh st Hf Hsh Hst).
  rewrite (filled_strides cls r ctp al p 0 sh st Hf Hsh Hst).
  rewrite (map_c_longlong_value_small sh) by (apply extents_small; assumption).
  rewrite (map_c_longlong_value_small st) by assumption.
  cbn [bind move_aligned_ptr_by_offset].
  unfold contents_address. cbn [addr ptype].
  destruct (Z.eqb_spec (p mod two64) 0) as [E|_]; [contradiction|].
  cbn [bind as_sequence].
  change (c_longlong_value 0) with 0. rewrite Z.mul_0_l, Z.add_0_r.
  unfold cast_int, as_array. cbn [addr ptype].
  rewrite Z.mod_mod by (rewrite two64_eq; lia).
  rewrite (as_ctype_sizeof ml d ctp Hc), Ht. cbn [bind].
  destruct (Z.eqb_spec (p mod two64) 0) as [E|_]; [contradiction|].
  rewrite (as_ctype_itemsize ml d ctp Hc), Hnp.
  cbn [negb bind dtype]. unfold as_strided. cbn [dtype].
  rewrite (as_ctype_itemsize ml d ctp Hc), Hnp. cbn [negb].
  unfold int64_mul at 1. rewrite length_map, Hsh, Hst, Nat.eqb_refl.
  cbn [negb bind dtype data].
  apply to_numpy_as_ctype. exact Hc.
Qed.

(** ** The descriptor of a 0-dimensional array *)

Section FilledZeroD.

Variables (cls : Structure) (t : ctype) (a p o : Z).
Hypothesis fields_cls : _fields_ cls = zero_d_fields t.

Lemma filled_zero_d_allocated :
  getattr {| itype := cls; buffer := filled_zero_d a p o |} "allocated" =
  Ok (VInt (c_longlong_value a)).
Proof.
  unfold filled_zero_d.
  do 2 (erewrite getattr_write_other;
        [ | rewrite (layout_zero_d cls t fields_cls); reflexivity | buffer_lengths.. ]).
  erewrite getattr_write_same;
    [ | rewrite (layout_zero_d cls t fields_cls); reflexivity | buffer_lengths.. ].
  cbn [decode]. rewrite le_combine_le_split_8, c_longlong_value_mod. reflexivity.
Qed.

Lemma filled_zero_d_aligned :
  getattr {| itype := cls; buffer := filled_zero_d a p o |} "aligned" =
  Ok (VPtr {| ptype := t; addr := p mod two64 |}).
Proof.
  unfold filled_zero_d.
  erewrite getattr_write_other;
    [ | rewrite (layout_zero_d cls t fields_cls); reflexivity | buffer_lengths.. ].
  erewrite getattr_write_same;
    [ | rewrite (layout_zero_d cls t fields_cls); reflexivity | buffer_lengths.. ].
  cbn [decode]. rewrite le_combine_le_split_8. reflexivity.
Qed.

Lemma filled_zero_d_offset :
  getattr {| itype := cls; buffer := filled_zero_d a p o |} "offset" =
  Ok (VInt (c_longlong_value o)).
Proof.
  unfold filled_zero_d.
  erewrite getattr_write_same;
    [ | rewrite (layout_zero_d cls t fields_cls); reflexivity | buffer_lengths.. ].
  cbn [decode]. rewrite le_combine_le_split_8, c_longlong_value_mod. reflexivity.
Qed.

(** A class with the three fields only has no [shape] and no [strides]. *)
Lemma zero_d_no_shape (buf : list byte) :
  getattr {| itype := cls; buffer := buf |} "shape" = Raise (AttributeError "shape").
Proof.
  unfold getattr. cbn [itype]. rewrite (layout_zero_d cls t fields_cls). reflexivity.
Qed.

Lemma zero_d_no_strides (buf : list byte) :
  getattr {| itype := cls; buffer := buf |} "strides" = Raise (AttributeError "strides").
Proof.
  unfold getattr. cbn [itype]. rewrite (layout_zero_d cls t fields_cls). reflexivity.
Qed.

End FilledZeroD.

Lemma make_zero_d_memref_descriptor_ok (t : ctype) (s : nat) :
  make_zero_d_memref_descriptor t s =
  Ok ({| cls_id := s; cls_doc := zero_d_doc; _fields_ := zero_d_fields t |}, S s).
Proof. reflexivity. Qed.

Lemma bindM_make_zero_d {B} (t : ctype) (k : Structure -> M B) (s : nat) :
  bindM (make_zero_d_memref_descriptor t) k s =
  k {| cls_id := s; cls_doc := zero_d_doc; _fields_ := zero_d_fields t |} (S s).
Proof. reflexivity. Qed.

Lemma bindM_ret {A B} (a : A) (k : A -> M B) (s : nat) :
  bindM (ret a) k s = k a s.
Proof. reflexivity. Qed.

Lemma get_ranked_zero_d (ml : bool) (A : ndarray np_dtype) (ctp : ctype) (s : nat) :
  as_ctype ml (dtype A) = Ok ctp ->
  ndim A = 0%nat ->
  get_ranked_memref_descriptor ml A s =
  Ok ({| itype := {| cls_id := s; cls_doc := zero_d_doc;
                     _fields_ := zero_d_fields ctp |};
         buffer := filled_zero_d (data A) (data A mod two64) 0 |},
      S s).
Proof.
  intros Hc Hr. unfold get_ranked_memref_descriptor.
  rewrite (bindM_lift _ _ _ _ Hc), Hr. cbn [Nat.eqb].
  rewrite bindM_make_zero_d.
  set (cls := {| cls_id := s; cls_doc := zero_d_doc; _fields_ := zero_d_fields ctp |}).
  pose proof (layout_zero_d cls ctp eq_refl) as Hl.
  rewrite bindM_ret.
  erewrite bindM_lift
    by (eapply setattr_field; [cbn [new itype]; rewrite Hl|]; reflexivity).
  erewrite bindM_lift
    by (eapply setattr_field;
        [cbn [new itype]; rewrite Hl; reflexivity|apply encode_pointer]).
  erewrite bindM_lift
    by (eapply setattr_field; [cbn [new itype]; rewrite Hl|]; reflexivity).
  reflexivity.
Qed.

(** ** Arrays as numpy hands them over *)

Lemma ndarray_ok_spec (A : ndarray np_dtype) :
  ndarray_ok A = true ->
  0 < data A < two64 /\
  (ndim A <= 64)%nat /\
  length (strides A) = length (shape A) /\
  Forall (fun d => 0 <= d < 2 ^ 63) (shape A) /\
  Forall (fun s => - 2 ^ 63 <= s < 2 ^ 63) (strides A).
Proof.
  unfold ndarray_ok. rewrite !andb_true_iff, !forallb_forall, !Forall_forall.
  intros [[[[[H1 H2] H3] H4] H5] H6]. repeat split.
  - apply Z.ltb_lt, H1.
  - apply Z.ltb_lt, H2.
  - apply Nat.leb_le, H3.
  - apply Nat.eqb_eq, H4.
  - apply H5 in H. apply andb_true_iff in H. lia.
  - apply H5 in H. apply andb_true_iff in H. lia.
  - apply H6 in H. apply andb_true_iff in H. lia.
  - apply H6 in H. apply andb_true_iff in H. lia.
Qed.

Lemma element_aligned_spec (A : ndarray np_dtype) :
  element_aligned A = true ->
  Forall (fun s => s mod itemsize (dtype A) = 0) (strides A).
Proof.
  unfold element_aligned. rewrite forallb_forall, Forall_forall.
  intros H s Hs. apply Z.eqb_eq, H, Hs.
Qed.

Lemma floordiv_range (b k : Z) :
  0 < k -> - 2 ^ 63 <= b < 2 ^ 63 -> - 2 ^ 63 <= b / k < 2 ^ 63.
Proof.
  intros Hk Hb. change (2 ^ 63) with 9223372036854775808 in *.
  pose proof (Z.div_mod b k ltac:(lia)) as E.
  pose proof (Z.mod_pos_bound b k Hk) as R.
  split; nia.
Qed.

Lemma data_mod (A : ndarray np_dtype) :
  0 < data A < two64 -> data A mod two64 = data A.
Proof. intro H. apply Z.mod_small. lia. Qed.

Lemma int64_mul_floordiv (k : Z) (st : list Z) :
  0 < k ->
  Forall (fun s => - 2 ^ 63 <= s < 2 ^ 63) st ->
  Forall (fun s => s mod k = 0) st ->
  int64_mul (map (fun b => b / k) st) k = st.
Proof.
  intros Hk Fr Fa. induction st as [|b st IH]; [reflexivity|].
  inversion Fr; inversion Fa; subst. cbn [map int64_mul].
  unfold int64_mul in IH. rewrite IH by assumption.
  replace (b / k * k) with b.
  - rewrite c_longlong_value_small by assumption. reflexivity.
  - rewrite Z.mul_comm. apply Z.div_exact; [lia|assumption].
Qed.

Lemma floordiv_all_range (k : Z) (st : list Z) :
  0 < k ->
  Forall (fun s => - 2 ^ 63 <= s < 2 ^ 63) st ->
  Forall (fun s => - 2 ^ 63 <= s < 2 ^ 63) (map (fun b => b / k) st).
Proof.
  intros Hk. induction 1; cbn [map]; constructor; auto using floordiv_range.
Qed.

(** ** Round trip through the ranked descriptor *)

(** C1, as amended.  For every element type the forward mapping accepts and
    every array of that type with at least one dimension whose byte strides
    are whole multiples of the element size, the reverse conversion applied
    to (a pointer to) the descriptor of the array returns a view with the
    shape, the byte strides and the elements of the array. *)
Theorem round_trip_of_element_aligned_array
    (ml : bool) (A : ndarray np_dtype) (ctp : ctype) :
  as_ctype ml (dtype A) = Ok ctp ->
  ndarray_ok A = true ->
  Nat.eqb (ndim A) 0 = false ->
  element_aligned A = true ->
  addressable A = true ->
  round_trip_identity ml A.
Proof.
  intros Hc Hok Hr Hal Had s.
  destruct (ndarray_ok_spec A Hok) as (Hd & Hn & Hl & Fsh & Fst).
  apply Nat.eqb_neq in Hr. apply element_aligned_spec in Hal.
  pose proof (itemsize_pos (dtype A)) as Hk.
  exists (as_view A). split; [|repeat split].
  unfold round_trip, bindM.
  rewrite (get_ranked_nd ml A ctp s Hc Hr Hl Hn). unfold lift, ctypes_pointer.
  unfold c_longlong_array.
  rewrite (map_c_longlong_value_small (shape A)) by (apply extents_small; assumption).
  rewrite (map_c_longlong_value_small (map _ (strides A)))
    by (apply floordiv_all_range; assumption).
  rewrite (ranked_memref_to_numpy_filled ml _ (ndim A) (dtype A) ctp);
    try reflexivity; try assumption.
  - rewrite Z.mod_mod, (data_mod A Hd) by (rewrite two64_eq; lia).
    rewrite int64_mul_floordiv by assumption. reflexivity.
  - rewrite length_map. exact Hl.
  - rewrite Z.mod_mod, (data_mod A Hd) by (rewrite two64_eq; lia). lia.
  - apply floordiv_all_range; assumption.
  - apply (addressable_spec A Had).
  - apply (addressable_spec A Had).
Qed.

Lemma round_trip_of_element_aligned_array_witness :
  round_trip_identity true matrix_2x3.
Proof.
  apply (round_trip_of_element_aligned_array true matrix_2x3 c_double); reflexivity.
Defined.

(** C1 as stated fails: the int32 column of a packed record array is an
    array of a supported type, and its round trip has stride 4, not 5. *)
Lemma round_trip_identity_counterexample :
  ndarray_ok packed_column = true /\
  addressable packed_column = true /\
  as_ctype true (dtype packed_column) = Ok c_int /\
  ~ round_trip_identity true packed_column.
Proof.
  split; [reflexivity|]. split; [reflexivity|]. split; [reflexivity|].
  intro H. destruct (H 0%nat) as (v & Hv & _ & Hst & _).
  vm_compute in Hv. injection Hv as <-. discriminate Hst.
Qed.

(** ** Strides in element units *)

(** C2, as amended.  For every array of an accepted element type and every
    dimension, the stride stored in the descriptor times the element size
    is the byte stride rounded down to a multiple of the element size; it
    is the byte stride itself when that is a multiple of the element size. *)
Theorem stored_stride_times_itemsize
    (ml : bool) (A : ndarray np_dtype) (ctp : ctype) :
  as_ctype ml (dtype A) = Ok ctp ->
  ndarray_ok A = true ->
  forall s, exists x s',
    get_ranked_memref_descriptor ml A s = Ok (x, s') /\
    forall i b, nth_error (strides A) i = Some b ->
      exists elems e,
        getattr x "strides" = Ok (VArr elems) /\
        nth_error elems i = Some e /\
        e * itemsize (dtype A) = b - b mod itemsize (dtype A) /\
        (b mod itemsize (dtype A) = 0 -> e * itemsize (dtype A) = b).
Proof.
  intros Hc Hok s.
  destruct (ndarray_ok_spec A Hok) as (Hd & Hn & Hl & Fsh & Fst).
  pose proof (itemsize_pos (dtype A)) as Hk.
  destruct (Nat.eq_dec (ndim A) 0) as [Hr|Hr].
  - eexists; eexists. split; [apply (get_ranked_zero_d ml A ctp s Hc Hr)|].
    intros i b Hb. unfold ndim in Hr. rewrite Hr in Hl.
    apply length_zero_iff_nil in Hl. rewrite Hl in Hb.
    destruct i; discriminate Hb.
  - eexists; eexists. split; [apply (get_ranked_nd ml A ctp s Hc Hr Hl Hn)|].
    intros i b Hb.
    exists (map (fun b => b / itemsize (dtype A)) (strides A)), (b / itemsize (dtype A)).
    split; [|split].
    + rewrite (filled_strides _ (ndim A) ctp); [| reflexivity | apply length_map | ].
      * unfold c_longlong_array.
        rewrite !(map_c_longlong_value_small (map _ (strides A)))
          by (apply floordiv_all_range; assumption).
        reflexivity.
      * rewrite length_c_longlong_array, length_map. exact Hl.
    + apply (map_nth_error (fun c => c / itemsize (dtype A))). exact Hb.
    + pose proof (Z.div_mod b (itemsize (dtype A)) ltac:(lia)). split; intros; lia.
Qed.

Lemma stored_stride_times_itemsize_witness :
  exists x s',
    get_ranked_memref_descriptor true matrix_2x3 0%nat = Ok (x, s') /\
    forall i b, nth_error (strides matrix_2x3) i = Some b ->
      exists elems e,
        getattr x "strides" = Ok (VArr elems) /\
        nth_error elems i = Some e /\
        e * itemsize (dtype matrix_2x3) = b - b mod itemsize (dtype matrix_2x3) /\
        (b mod itemsize (dtype matrix_2x3) = 0 -> e * itemsize (dtype matrix_2x3) = b).
Proof.
  apply (stored_stride_times_itemsize true matrix_2x3 c_double); reflexivity.
Defined.

(** C2 as stated fails on the packed column: the stored stride is 1
    element, and 1 * 4 is not the byte stride 5. *)
Lemma stride_unit_inversion_counterexample :
  ndarray_ok packed_column = true /\
  ~ stride_unit_inversion true packed_column.
Proof.
  split; [reflexivity|].
  intro H. destruct (H 0%nat) as (x & s' & Hg & Hs).
  vm_compute in Hg. injection Hg as <- <-.
  destruct (Hs 0%nat 5 eq_refl) as (elems & e & Hget & Hn & He).
  vm_compute in Hget. injection Hget as <-.
  vm_compute in Hn. injection Hn as <-.
  vm_compute in He. discriminate He.
Qed.

(** ** Moving a pointer by an offset *)

(** C3, as amended.  For a pointer that is not NULL and any integer [k],
    the pointer returned has the same type and holds the address of [p]
    plus [k] times the element size, reduced to 64 bits: exactly that sum
    whenever the sum is an address. *)
Theorem move_aligned_ptr_by_offset_address (p : pointer) (k : Z) :
  addr p <> 0 ->
  exists q,
    move_aligned_ptr_by_offset (VPtr p) (VInt k) = Ok q /\
    ptype q = ptype p /\
    addr q = (addr p + k * Z.of_nat (sizeof (ptype p))) mod two64 /\
    (0 <= addr p + k * Z.of_nat (sizeof (ptype p)) < two64 ->
     addr q = addr p + k * Z.of_nat (sizeof (ptype p))).
Proof.
  intro Hp. unfold move_aligned_ptr_by_offset, contents_address.
  destruct (Z.eqb_spec (addr p) 0) as [E|_]; [contradiction|].
  cbn [bind]. eexists. split; [reflexivity|].
  cbn [cast_int ptype addr]. repeat split.
  intro Hr. apply Z.mod_small. exact Hr.
Qed.

Lemma move_aligned_ptr_by_offset_address_witness :
  exists q,
    move_aligned_ptr_by_offset (VPtr {| ptype := C128; addr := 4096 |}) (VInt 3) = Ok q /\
    ptype q = C128 /\
    addr q = (4096 + 3 * 16) mod two64 /\
    (0 <= 4096 + 3 * 16 < two64 -> addr q = 4096 + 3 * 16).
Proof.
  apply (move_aligned_ptr_by_offset_address {| ptype := C128; addr := 4096 |} 3).
  cbn. lia.
Defined.

(** C3 as stated fails for the NULL pointer, whose [contents] cannot be
    taken: the call raises instead of returning a pointer. *)
Lemma offset_scaling_counterexample :
  move_aligned_ptr_by_offset (VPtr {| ptype := c_float; addr := 0 |}) (VInt 1)
    = Raise ValueError /\
  ~ offset_scaling {| ptype := c_float; addr := 0 |} 1.
Proof.
  split; [reflexivity|]. intros (q & Hq & _). discriminate Hq.
Qed.

(** ** The rank-0 path *)

(** C4, evaluated.  The descriptor of a 0-dimensional array has the three
    fields [allocated], [aligned], [offset] and no others, with offset 0;
    the ranked reverse conversion then asks it for [shape] and raises
    [AttributeError] instead of returning a 0-dimensional view. *)
Theorem rank_0_ranked_path (ml : bool) (A : ndarray np_dtype) (ctp : ctype) :
  as_ctype ml (dtype A) = Ok ctp ->
  ndarray_ok A = true ->
  ndim A = 0%nat ->
  forall s, exists x,
    get_ranked_memref_descriptor ml A s = Ok (x, S s) /\
    map fst (_fields_ (itype x)) = ["allocated"; "aligned"; "offset"]%string /\
    getattr x "offset" = Ok (VInt 0) /\
    getattr x "shape" = Raise (AttributeError "shape") /\
    getattr x "strides" = Raise (AttributeError "strides") /\
    ranked_memref_to_numpy ml (ctypes_pointer x) = Raise (AttributeError "shape").
Proof.
  intros Hc Hok Hr s.
  destruct (ndarray_ok_spec A Hok) as (Hd & _).
  eexists. split; [apply (get_ranked_zero_d ml A ctp s Hc Hr)|].
  set (cls := {| cls_id := s; cls_doc := zero_d_doc; _fields_ := zero_d_fields ctp |}).
  assert (Hf : _fields_ cls = zero_d_fields ctp) by reflexivity.
  split; [reflexivity|].
  split; [exact (filled_zero_d_offset cls ctp (data A) (data A mod two64) 0 Hf)|].
  split; [apply (zero_d_no_shape cls ctp Hf)|].
  split; [apply (zero_d_no_strides cls ctp Hf)|].
  unfold ranked_memref_to_numpy, field, ctypes_pointer. cbn [index0 bind].
  rewrite (filled_zero_d_aligned cls ctp _ _ _ Hf).
  rewrite (filled_zero_d_offset cls ctp _ _ _ Hf).
  cbn [bind move_aligned_ptr_by_offset]. unfold contents_address. cbn [addr ptype].
  rewrite Z.mod_mod, (data_mod A Hd) by (rewrite two64_eq; lia).
  destruct (Z.eqb_spec (data A) 0) as [E|_]; [lia|].
  cbn [bind]. rewrite (zero_d_no_shape cls ctp Hf). reflexivity.
Qed.

Lemma rank_0_ranked_path_witness :
  exists x,
    get_ranked_memref_descriptor true scalar_array 0%nat = Ok (x, 1%nat) /\
    map fst (_fields_ (itype x)) = ["allocated"; "aligned"; "offset"]%string /\
    getattr x "offset" = Ok (VInt 0) /\
    getattr x "shape" = Raise (AttributeError "shape") /\
    getattr x "strides" = Raise (AttributeError "strides") /\
    ranked_memref_to_numpy true (ctypes_pointer x) = Raise (AttributeError "shape").
Proof.
  apply (rank_0_ranked_path true scalar_array c_int); reflexivity.
Defined.

(** ** Element types that need ml_dtypes *)

(** C5, as amended.  Without [ml_dtypes], the reverse mapping raises the
    error that asks for the package for both structures, whatever the
    array.  The forward mapping does not know the two element types then:
    it hands them to numpy's own mapping, whose refusal is the one any
    unsupported type gets.  Neither returns a view or a layout. *)
Theorem missing_registry :
  (forall a sh st,
      to_numpy false {| dtype := dtype_of_ctype BF16; data := a;
                        shape := sh; strides := st |}
      = Raise (AssertionError (install_hint "bfloat16"))) /\
  (forall a sh st,
      to_numpy false {| dtype := dtype_of_ctype F8E5M2; data := a;
                        shape := sh; strides := st |}
      = Raise (AssertionError (install_hint "float8_e5m2"))) /\
  as_ctype false bfloat16 = as_ctypes_type bfloat16 /\
  as_ctype false float8_e5m2 = as_ctypes_type float8_e5m2 /\
  as_ctype false bfloat16 = Raise NotImplementedError /\
  as_ctype false float8_e5m2 = Raise NotImplementedError /\
  as_ctype false object_ = Raise NotImplementedError.
Proof. repeat split. Qed.

(** C5 as stated fails for the forward mapping: what it raises for
    bfloat16 is not the error that asks for the package. *)
Lemma missing_registry_failure_counterexample :
  ~ missing_registry_failure bfloat16 BF16.
Proof. intros [[msg H] _]. discriminate H. Qed.

(** ** The layout of a ranked descriptor *)

(** C6, as amended.  For every rank from 1 to 2^59 - 2 (the ranks whose
    structure ctypes can build: 24 + 16 * rank bytes must fit
    [PY_SSIZE_T_MAX]) and every element type,
    [make_nd_memref_descriptor] returns a class whose fields are, in this
    order, [allocated] (an 8-byte signed integer, the width of a pointer),
    [aligned] (a pointer to the element type), [offset] (an 8-byte signed
    integer), [shape] and [strides] (arrays of [rank] 8-byte signed
    integers), laid out without padding. *)
Theorem descriptor_abi_layout (rank : Z) (dtype : ctype) (s : nat) :
  1 <= rank <= 2 ^ 59 - 2 ->
  exists cls,
    make_nd_memref_descriptor rank dtype s = Ok (cls, S s) /\
    _fields_ cls =
      [ ("allocated"%string, LongLong);
        ("aligned"%string, POINTER dtype);
        ("offset"%string, LongLong);
        ("shape"%string, LongLongArray (Z.to_nat rank));
        ("strides"%string, LongLongArray (Z.to_nat rank)) ] /\
    layout cls =
      [ ("allocated"%string, (0, LongLong));
        ("aligned"%string, (8, POINTER dtype));
        ("offset"%string, (16, LongLong));
        ("shape"%string, (24, LongLongArray (Z.to_nat rank)));
        ("strides"%string, (24 + 8 * Z.to_nat rank, LongLongArray (Z.to_nat rank))) ]%nat /\
    map (fun f => sizeof_field (snd f)) (_fields_ cls) =
      [ 8; 8; 8; 8 * Z.to_nat rank; 8 * Z.to_nat rank ]%nat /\
    sizeof_field LongLong = sizeof_field c_void_p /\
    sizeof_field (POINTER dtype) = sizeof_field c_void_p /\
    sizeof_struct cls = (24 + 16 * Z.to_nat rank)%nat.
Proof.
  intro Hr. eexists. split.
  - rewrite <- (Z2Nat.id rank) at 1 by lia. apply make_nd_memref_descriptor_ok.
    rewrite Z2Nat.id by lia. lia.
  - split; [reflexivity|].
    split; [apply (layout_nd _ (Z.to_nat rank) dtype); reflexivity|].
    split; [reflexivity|]. split; [reflexivity|]. split; [reflexivity|].
    apply (sizeof_nd _ (Z.to_nat rank) dtype). reflexivity.
Qed.

Lemma descriptor_abi_layout_witness :
  exists cls,
    make_nd_memref_descriptor 2 c_float 7%nat = Ok (cls, 8%nat) /\
    _fields_ cls =
      [ ("allocated"%string, LongLong);
        ("aligned"%string, POINTER c_float);
        ("offset"%string, LongLong);
        ("shape"%string, LongLongArray 2);
        ("strides"%string, LongLongArray 2) ] /\
    layout cls =
      [ ("allocated"%string, (0, LongLong));
        ("aligned"%string, (8, POINTER c_float));
        ("offset"%string, (16, LongLong));
        ("shape"%string, (24, LongLongArray 2));
        ("strides"%string, (40, LongLongArray 2)) ]%nat /\
    map (fun f => sizeof_field (snd f)) (_fields_ cls) = [ 8; 8; 8; 16; 16 ]%nat /\
    sizeof_field LongLong = sizeof_field c_void_p /\
    sizeof_field (POINTER c_float) = sizeof_field c_void_p /\
    sizeof_struct cls = 56%nat.
Proof.
  apply (descriptor_abi_layout 2 c_float 7%nat). vm_compute. split; discriminate.
Defined.

(** C6 as stated fails for the ranks ctypes has no array for: at rank 2^60
    the call raises [OverflowError] ("array too large") instead of
    returning a class. *)
Lemma descriptor_abi_counterexample :
  1 <= 2 ^ 60 /\
  (forall s, make_nd_memref_descriptor (2 ^ 60) c_float s = Raise OverflowError) /\
  ~ descriptor_abi (2 ^ 60) c_float.
Proof.
  split; [vm_compute; discriminate|]. split; [reflexivity|].
  intro H. destruct (H 0%nat) as (cls & Hc & _). discriminate Hc.
Qed.

(** ** What the forward conversion stores *)

(** C8.  For every array of an accepted element type with at least one
    dimension, the descriptor returned holds the address of the buffer in
    [allocated] (as the 64-bit word it is; as the same integer when the
    address is below 2^63) and in [aligned], 0 in [offset], and the extents
    of the array, in their order, in [shape]. *)
Theorem forward_conversion_fields (ml : bool) (A : ndarray np_dtype) (ctp : ctype) :
  as_ctype ml (dtype A) = Ok ctp ->
  ndarray_ok A = true ->
  Nat.eqb (ndim A) 0 = false ->
  forall s, exists x allocated,
    get_ranked_memref_descriptor ml A s = Ok (x, S s) /\
    getattr x "allocated" = Ok (VInt allocated) /\
    allocated mod two64 = data A /\
    (data A < 2 ^ 63 -> allocated = data A) /\
    getattr x "aligned" = Ok (VPtr {| ptype := ctp; addr := data A |}) /\
    getattr x "offset" = Ok (VInt 0) /\
    getattr x "shape" = Ok (VArr (shape A)).
Proof.
  intros Hc Hok Hr s.
  destruct (ndarray_ok_spec A Hok) as (Hd & Hn & Hl & Fsh & Fst).
  apply Nat.eqb_neq in Hr.
  assert (Hst : length (c_longlong_array
                  (map (fun b => b / itemsize (dtype A)) (strides A))) = ndim A)
    by (rewrite length_c_longlong_array, length_map; exact Hl).
  eexists; exists (c_longlong_value (data A)).
  split; [apply (get_ranked_nd ml A ctp s Hc Hr Hl Hn)|].
  split; [apply (filled_allocated _ (ndim A) ctp);
          [reflexivity|apply length_c_longlong_array|exact Hst]|].
  split; [rewrite c_longlong_value_bits; apply data_mod; exact Hd|].
  split; [intro Hs; apply c_longlong_value_small; change (2 ^ 63) with 9223372036854775808 in *; lia|].
  split.
  { rewrite (filled_aligned _ (ndim A) ctp);
      [|reflexivity|apply length_c_longlong_array|exact Hst].
    rewrite Z.mod_mod, (data_mod A Hd) by (rewrite two64_eq; lia). reflexivity. }
  split.
  { rewrite (filled_offset _ (ndim A) ctp);
      [reflexivity|reflexivity|apply length_c_longlong_array|exact Hst]. }
  rewrite (filled_shape _ (ndim A) ctp);
    [|reflexivity|apply length_c_longlong_array|exact Hst].
  unfold c_longlong_array.
  rewrite !(map_c_longlong_value_small (shape A)) by (apply extents_small; assumption).
  reflexivity.
Qed.

Lemma forward_conversion_fields_witness :
  exists x allocated,
    get_ranked_memref_descriptor true matrix_2x3 0%nat = Ok (x, 1%nat) /\
    getattr x "allocated" = Ok (VInt allocated) /\
    allocated mod two64 = 4096 /\
    (4096 < 2 ^ 63 -> allocated = 4096) /\
    getattr x "aligned" = Ok (VPtr {| ptype := c_double; addr := 4096 |}) /\
    getattr x "offset" = Ok (VInt 0) /\
    getattr x "shape" = Ok (VArr [2; 3]).
Proof.
  apply (forward_conversion_fields true matrix_2x3 c_double); reflexivity.
Defined.

(** ** The layout builders as functions of their arguments *)

(** C9.  Two calls of a layout builder with the same arguments, whenever
    they are made, return two classes (each call creates its own) that are
    the same structure type: the same fields in the same order with the
    same types, offsets and size.  A call does nothing else than create
    its class; a rank that ctypes refuses is refused at every call. *)
Theorem layout_builders_idempotent (rank : Z) (dtype : ctype) (s1 s2 : nat) :
  match make_nd_memref_descriptor rank dtype s1,
        make_nd_memref_descriptor rank dtype s2 with
  | Ok (c1, s1'), Ok (c2, s2') =>
      same_struct_type c1 c2 /\ s1' = S s1 /\ s2' = S s2 /\
      cls_id c1 = s1 /\ cls_id c2 = s2
  | Raise e1, Raise e2 => e1 = e2
  | _, _ => False
  end /\
  match make_zero_d_memref_descriptor dtype s1,
        make_zero_d_memref_descriptor dtype s2 with
  | Ok (c1, s1'), Ok (c2, s2') =>
      same_struct_type c1 c2 /\ s1' = S s1 /\ s2' = S s2 /\
      cls_id c1 = s1 /\ cls_id c2 = s2
  | _, _ => False
  end.
Proof.
  split.
  - unfold make_nd_memref_descriptor, bindM, lift, c_longlong_times, new_class.
    destruct ((rank <? - PY_SSIZE_T_MAX - 1) || (PY_SSIZE_T_MAX <? rank));
      [reflexivity|].
    destruct (rank <? 0); [reflexivity|].
    destruct (PY_SSIZE_T_MAX / 8 <? rank); [reflexivity|].
    destruct (PY_SSIZE_T_MAX <? _); [reflexivity|].
    unfold same_struct_type, layout, sizeof_struct. cbn [_fields_ cls_id].
    repeat split.
  - rewrite !make_zero_d_memref_descriptor_ok.
    unfold same_struct_type, layout, sizeof_struct. cbn [_fields_ cls_id].
    repeat split.
Qed.

(** ** A rank-0 descriptor read through the rank-parameterised class *)

Section ZeroRankThroughNd.

Variables (cz cn : Structure) (t : ctype).
Hypothesis fields_cz : _fields_ cz = zero_d_fields t.
Hypothesis fields_cn : _fields_ cn = nd_fields 0 t.

Lemma nd_0_layout :
  layout cn = layout cz ++ [ ("shape"%string, (24%nat, LongLongArray 0));
                             ("strides"%string, (24%nat, LongLongArray 0)) ].
Proof.
  rewrite (layout_nd cn 0 t fields_cn), (layout_zero_d cz t fields_cz). reflexivity.
Qed.

Lemma nd_0_sizeof : sizeof_struct cn = sizeof_struct cz.
Proof.
  rewrite (sizeof_nd cn 0 t fields_cn), (sizeof_zero_d cz t fields_cz). reflexivity.
Qed.

Lemma nd_0_getattr (buf : list byte) (name : string) :
  In name ["allocated"; "aligned"; "offset"]%string ->
  getattr {| itype := cn; buffer := buf |} name =
  getattr {| itype := cz; buffer := buf |} name.
Proof.
  intro Hn. unfold getattr. cbn [itype buffer].
  rewrite (layout_nd cn 0 t fields_cn), (layout_zero_d cz t fields_cz).
  destruct Hn as [<-|[<-|[<-|[]]]]; reflexivity.
Qed.

Lemma nd_0_shape (buf : list byte) :
  (24 <= length buf)%nat ->
  getattr {| itype := cn; buffer := buf |} "shape" = Ok (VArr []).
Proof.
  intro Hb. unfold getattr. cbn [itype buffer].
  rewrite (layout_nd cn 0 t fields_cn). cbn [lookup String.eqb Ascii.eqb Bool.eqb].
  change (sizeof_field (LongLongArray 0)) with 0%nat.
  unfold read. rewrite Nat.add_0_r.
  destruct (Nat.leb_spec 24 (length buf)); [reflexivity|lia].
Qed.

Lemma nd_0_strides (buf : list byte) :
  (24 <= length buf)%nat ->
  getattr {| itype := cn; buffer := buf |} "strides" = Ok (VArr []).
Proof.
  intro Hb. unfold getattr. cbn [itype buffer].
  rewrite (layout_nd cn 0 t fields_cn). cbn [lookup String.eqb Ascii.eqb Bool.eqb].
  change (24 + 8 * 0)%nat with 24%nat.
  change (sizeof_field (LongLongArray 0)) with 0%nat.
  unfold read. rewrite Nat.add_0_r.
  destruct (Nat.leb_spec 24 (length buf)); [reflexivity|lia].
Qed.

End ZeroRankThroughNd.

Lemma length_filled_zero_d (a p o : Z) : length (filled_zero_d a p o) = 24%nat.
Proof. unfold filled_zero_d. buffer_lengths. Qed.

Lemma zero_rank_layout (t : ctype) (s1 s2 : nat) :
  exists cz cn,
    make_zero_d_memref_descriptor t s1 = Ok (cz, S s1) /\
    make_nd_memref_descriptor 0 t s2 = Ok (cn, S s2) /\
    _fields_ cz = zero_d_fields t /\
    _fields_ cn = nd_fields 0 t /\
    sizeof_struct cn = sizeof_struct cz /\
    layout cn = layout cz ++ [ ("shape"%string, (24%nat, LongLongArray 0));
                               ("strides"%string, (24%nat, LongLongArray 0)) ] /\
    sizeof_field (LongLongArray 0) = 0%nat /\
    forall (buf : list byte) (name : string),
      In name ["allocated"; "aligned"; "offset"]%string ->
      getattr {| itype := cn; buffer := buf |} name =
      getattr {| itype := cz; buffer := buf |} name.
Proof.
  eexists; eexists.
  split; [reflexivity|].
  split; [apply (make_nd_memref_descriptor_ok 0 t s2); vm_compute; discriminate|].
  split; [reflexivity|]. split; [reflexivity|].
  split; [apply (nd_0_sizeof _ _ t); reflexivity|].
  split; [apply (nd_0_layout _ _ t); reflexivity|].
  split; [reflexivity|].
  intros buf name. apply (nd_0_getattr _ _ t); reflexivity.
Qed.

(** The unranked reverse conversion on a wrapper of rank 0 around the
    bytes of a rank-0 descriptor. *)
Lemma unranked_memref_to_numpy_zero_d (ml : bool) (dt : np_dtype) (ctp : ctype)
    (al p o : Z) (s : nat) :
  as_ctype ml dt = Ok ctp ->
  (p mod two64 =? 0) = false ->
  ((p mod two64 + c_longlong_value o * itemsize dt) mod two64 =? 0) = false ->
  unranked_memref_to_numpy ml
    (RefTo {| rank := 0; descriptor := RefTo (filled_zero_d al p o) |}) dt s =
  Ok ({| dtype := Logical dt;
         data := (p mod two64 + c_longlong_value o * itemsize dt) mod two64;
         shape := []; strides := [] |}, S s).
Proof.
  intros Hc Hp Ha. unfold unranked_memref_to_numpy.
  rewrite (bindM_lift _ _ _ _ Hc). cbn [index0].
  erewrite bindM_lift by reflexivity.
  cbn [rank]. change 0 with (Z.of_nat 0) at 1.
  rewrite bindM_make_nd by (vm_compute; discriminate).
  erewrite bindM_lift by reflexivity.
  rewrite bindM_ret. cbn [descriptor cast_to_POINTER].
  set (cz := {| cls_id := 0; cls_doc := zero_d_doc; _fields_ := zero_d_fields ctp |}).
  set (cn := {| cls_id := s; cls_doc := nd_doc; _fields_ := nd_fields 0 ctp |}).
  unfold field. cbn [index0 bind].
  rewrite !(nd_0_getattr cz cn ctp eq_refl eq_refl) by (cbn; tauto).
  rewrite (filled_zero_d_aligned cz ctp _ _ _ eq_refl).
  rewrite (filled_zero_d_offset cz ctp _ _ _ eq_refl).
  rewrite !(nd_0_shape cn ctp eq_refl) by (rewrite length_filled_zero_d; lia).
  rewrite !(nd_0_strides cn ctp eq_refl) by (rewrite length_filled_zero_d; lia).
  cbn [bind move_aligned_ptr_by_offset as_sequence].
  unfold contents_address. cbn [addr ptype]. rewrite Hp. cbn [bind].
  rewrite (as_ctype_sizeof ml dt ctp Hc).
  unfold cast_int, as_array. cbn [addr ptype ctype_ndarray bind]. rewrite Ha.
  rewrite (as_ctype_itemsize ml dt ctp Hc), numpy_shape_ok_scalar.
  cbn [negb bind c_contiguous]. unfold as_strided. cbn [dtype].
  rewrite (as_ctype_itemsize ml dt ctp Hc), numpy_shape_ok_scalar.
  cbn [negb int64_mul map length Nat.eqb bind dtype data].
  rewrite (to_numpy_as_ctype ml dt ctp _ _ _ Hc). reflexivity.
Qed.

(** C10.  For every element type, the class built for rank 0 and the
    class built by [make_nd_memref_descriptor] with rank 0 have the same
    size and the same offsets for [allocated], [aligned] and [offset]; the
    two arrays of length 0 that the latter adds take no byte, so the
    three fields of any rank-0 descriptor read the same through either
    class.  Hence [unranked_memref_to_numpy], which casts the bytes of a
    rank-0 descriptor to the rank-parameterised class, reads the fields
    stored in it: whatever [allocated], for an aligned pointer [p] (not
    NULL) and an offset [o] it returns the 0-dimensional view [o]
    elements past [p]. *)
Theorem zero_rank_layout_coincidence (ml : bool) (dt : np_dtype) (ctp : ctype)
    (al p o : Z) (s1 s2 s3 : nat) :
  as_ctype ml dt = Ok ctp ->
  (p mod two64 =? 0) = false ->
  ((p mod two64 + c_longlong_value o * itemsize dt) mod two64 =? 0) = false ->
  exists cz cn,
    make_zero_d_memref_descriptor ctp s1 = Ok (cz, S s1) /\
    make_nd_memref_descriptor 0 ctp s2 = Ok (cn, S s2) /\
    sizeof_struct cn = sizeof_struct cz /\
    layout cn = layout cz ++ [ ("shape"%string, (24%nat, LongLongArray 0));
                               ("strides"%string, (24%nat, LongLongArray 0)) ] /\
    sizeof_field (LongLongArray 0) = 0%nat /\
    (forall (buf : list byte) (name : string),
       In name ["allocated"; "aligned"; "offset"]%string ->
       getattr {| itype := cn; buffer := buf |} name =
       getattr {| itype := cz; buffer := buf |} name) /\
    getattr {| itype := cz; buffer := filled_zero_d al p o |} "allocated" =
      Ok (VInt (c_longlong_value al)) /\
    getattr {| itype := cz; buffer := filled_zero_d al p o |} "aligned" =
      Ok (VPtr {| ptype := ctp; addr := p mod two64 |}) /\
    getattr {| itype := cz; buffer := filled_zero_d al p o |} "offset" =
      Ok (VInt (c_longlong_value o)) /\
    unranked_memref_to_numpy ml
      (RefTo {| rank := 0;
                descriptor :=
                  cast_to_void_p
                    (ctypes_pointer {| itype := cz;
                                       buffer := filled_zero_d al p o |}) |})
      dt s3 =
    Ok ({| dtype := Logical dt;
           data := (p mod two64 + c_longlong_value o * itemsize dt) mod two64;
           shape := []; strides := [] |}, S s3).
Proof.
  intros Hc Hp Ha.
  destruct (zero_rank_layout ctp s1 s2)
    as (cz & cn & Hz & Hn & Fz & Fn & Hsize & Hlay & Hzero & Hget).
  exists cz, cn.
  split; [exact Hz|]. split; [exact Hn|]. split; [exact Hsize|].
  split; [exact Hlay|]. split; [exact Hzero|]. split; [exact Hget|].
  split; [apply (filled_zero_d_allocated cz ctp al p o Fz)|].
  split; [apply (filled_zero_d_aligned cz ctp al p o Fz)|].
  split; [apply (filled_zero_d_offset cz ctp al p o Fz)|].
  cbn [ctypes_pointer cast_to_void_p buffer].
  apply (unranked_memref_to_numpy_zero_d ml dt ctp al p o s3 Hc Hp Ha).
Qed.

Lemma zero_rank_layout_coincidence_witness :
  exists cz cn,
    make_zero_d_memref_descriptor c_float 0%nat = Ok (cz, 1%nat) /\
    make_nd_memref_descriptor 0 c_float 1%nat = Ok (cn, 2%nat) /\
    sizeof_struct cn = sizeof_struct cz /\
    layout cn = layout cz ++ [ ("shape"%string, (24%nat, LongLongArray 0));
                               ("strides"%string, (24%nat, LongLongArray 0)) ] /\
    sizeof_field (LongLongArray 0) = 0%nat /\
    (forall (buf : list byte) (name : string),
       In name ["allocated"; "aligned"; "offset"]%string ->
       getattr {| itype := cn; buffer := buf |} name =
       getattr {| itype := cz; buffer := buf |} name) /\
    getattr {| itype := cz; buffer := filled_zero_d 4096 4096 2 |} "allocated" =
      Ok (VInt (c_longlong_value 4096)) /\
    getattr {| itype := cz; buffer := filled_zero_d 4096 4096 2 |} "aligned" =
      Ok (VPtr {| ptype := c_float; addr := 4096 mod two64 |}) /\
    getattr {| itype := cz; buffer := filled_zero_d 4096 4096 2 |} "offset" =
      Ok (VInt (c_longlong_value 2)) /\
    unranked_memref_to_numpy true
      (RefTo {| rank := 0;
                descriptor :=
                  cast_to_void_p
                    (ctypes_pointer {| itype := cz;
                                       buffer := filled_zero_d 4096 4096 2 |}) |})
      float32 1%nat =
    Ok ({| dtype := Logical float32;
           data := (4096 mod two64 + c_longlong_value 2 * itemsize float32) mod two64;
           shape := []; strides := [] |}, 2%nat).
Proof.
  apply (zero_rank_layout_coincidence true float32 c_float 4096 4096 2 0%nat 1%nat 1%nat);
    reflexivity.
Defined.

(** ** The unranked wrapper *)

(** The unranked descriptor: the rank, and a reference to the bytes of the
    ranked descriptor. *)
Lemma get_unranked_memref_descriptor_eq (ml : bool) (A : ndarray np_dtype) (s : nat) :
  get_unranked_memref_descriptor ml A s =
  match get_ranked_memref_descriptor ml A s with
  | Ok (x, s') =>
      Ok ({| rank := c_longlong_value (Z.of_nat (ndim A));
             descriptor := RefTo (buffer x) |}, s')
  | Raise e => Raise e
  end.
Proof.
  unfold get_unranked_memref_descriptor, bindM, ret.
  destruct (get_ranked_memref_descriptor ml A s) as [[x s']|e]; reflexivity.
Qed.

(** The unranked round trip of a 0-dimensional array returns the array. *)
Lemma unranked_round_trip_zero_d (ml : bool) (A : ndarray np_dtype) (ctp : ctype)
    (s : nat) :
  as_ctype ml (dtype A) = Ok ctp ->
  ndarray_ok A = true ->
  ndim A = 0%nat ->
  value_of (unranked_round_trip ml A s) = Ok (as_view A).
Proof.
  intros Hc Hok Hr.
  destruct (ndarray_ok_spec A Hok) as (Hd & _ & Hl & _).
  assert (Hsh : shape A = []) by (apply length_zero_iff_nil; exact Hr).
  assert (Hst : strides A = [])
    by (apply length_zero_iff_nil; rewrite Hl; exact Hr).
  unfold unranked_round_trip.
  unfold bindM at 1.
  rewrite get_unranked_memref_descriptor_eq, (get_ranked_zero_d ml A ctp s Hc Hr).
  cbn [buffer]. unfold unranked_memref_to_numpy.
  rewrite (bindM_lift _ _ _ _ Hc). cbn [index0].
  erewrite bindM_lift by reflexivity.
  cbn [rank]. rewrite Hr.
  change (c_longlong_value (Z.of_nat 0)) with (Z.of_nat 0).
  rewrite bindM_make_nd by (vm_compute; discriminate).
  erewrite bindM_lift by reflexivity.
  rewrite bindM_ret.
  cbn [descriptor cast_to_POINTER].
  set (cz := {| cls_id := s; cls_doc := zero_d_doc; _fields_ := zero_d_fields ctp |}).
  set (cn := {| cls_id := S s; cls_doc := nd_doc; _fields_ := nd_fields 0 ctp |}).
  unfold field. cbn [index0 bind].
  rewrite !(nd_0_getattr cz cn ctp eq_refl eq_refl) by (cbn; tauto).
  rewrite (filled_zero_d_aligned cz ctp _ _ _ eq_refl).
  rewrite (filled_zero_d_offset cz ctp _ _ _ eq_refl).
  rewrite !(nd_0_shape cn ctp eq_refl) by (rewrite length_filled_zero_d; lia).
  rewrite !(nd_0_strides cn ctp eq_refl) by (rewrite length_filled_zero_d; lia).
  cbn [bind move_aligned_ptr_by_offset as_sequence].
  unfold contents_address. cbn [addr ptype].
  rewrite Z.mod_mod, (data_mod A Hd) by (rewrite two64_eq; lia).
  destruct (Z.eqb_spec (data A) 0) as [E|_]; [lia|].
  cbn [bind]. change (c_longlong_value 0) with 0. rewrite Z.mul_0_l, Z.add_0_r.
  unfold cast_int, as_array. cbn [addr ptype ctype_ndarray bind].
  rewrite (data_mod A Hd).
  destruct (Z.eqb_spec (data A) 0) as [E|_]; [lia|].
  rewrite (as_ctype_itemsize ml (dtype A) ctp Hc), numpy_shape_ok_scalar.
  cbn [negb bind c_contiguous]. unfold as_strided. cbn [dtype].
  rewrite (as_ctype_itemsize ml (dtype A) ctp Hc), numpy_shape_ok_scalar.
  cbn [int64_mul map length Nat.eqb negb bind dtype data].
  rewrite (to_numpy_as_ctype ml (dtype A) ctp _ _ _ Hc).
  cbn [lift value_of]. unfold as_view. rewrite Hsh, Hst. reflexivity.
Qed.

(** C7, evaluated.  On a 0-dimensional array the two reverse paths differ:
    the unranked one returns the array, the ranked one raises
    [AttributeError] (the failure of the rank-0 path above). *)
Theorem unranked_and_ranked_paths_at_rank_0
    (ml : bool) (A : ndarray np_dtype) (ctp : ctype) :
  as_ctype ml (dtype A) = Ok ctp ->
  ndarray_ok A = true ->
  ndim A = 0%nat ->
  forall s,
    value_of (unranked_round_trip ml A s) = Ok (as_view A) /\
    value_of (round_trip ml A s) = Raise (AttributeError "shape").
Proof.
  intros Hc Hok Hr s. split.
  - apply (unranked_round_trip_zero_d ml A ctp s Hc Hok Hr).
  - destruct (ndarray_ok_spec A Hok) as (Hd & _).
    unfold round_trip, bindM. rewrite (get_ranked_zero_d ml A ctp s Hc Hr).
    set (cz := {| cls_id := s; cls_doc := zero_d_doc; _fields_ := zero_d_fields ctp |}).
    unfold ranked_memref_to_numpy, field, ctypes_pointer. cbn [index0 bind].
    rewrite (filled_zero_d_aligned cz ctp _ _ _ eq_refl).
    rewrite (filled_zero_d_offset cz ctp _ _ _ eq_refl).
    cbn [bind move_aligned_ptr_by_offset]. unfold contents_address. cbn [addr ptype].
    rewrite Z.mod_mod, (data_mod A Hd) by (rewrite two64_eq; lia).
    destruct (Z.eqb_spec (data A) 0) as [E|_]; [lia|].
    cbn [bind]. rewrite (zero_d_no_shape cz ctp eq_refl). reflexivity.
Qed.

Lemma unranked_and_ranked_paths_at_rank_0_witness :
  value_of (unranked_round_trip true scalar_array 0%nat) = Ok (as_view scalar_array) /\
  value_of (round_trip true scalar_array 0%nat) = Raise (AttributeError "shape").
Proof.
  apply (unranked_and_ranked_paths_at_rank_0 true scalar_array c_int); reflexivity.
Defined.

Lemma bindM_lift_raise {A B} (r : result A) (e : exn) (k : A -> M B) (s : nat) :
  r = Raise e -> bindM (lift r) k s = Raise e.
Proof. intros ->. reflexivity. Qed.

Lemma setattr_refused (x : instance) (name : string) (v : value)
    (off : nat) (t : ftype) (e : exn) :
  lookup name (layout (itype x)) = Some (off, t) ->
  encode t v = Raise e ->
  setattr x name v = Raise e.
Proof.
  intros Hl He. unfold setattr. rewrite Hl, He. reflexivity.
Qed.

(** An array with a number of strides other than its rank has no
    descriptor: the array of strides does not fit the field. *)
Lemma get_ranked_nd_mismatch (ml : bool) (A : ndarray np_dtype) (ctp : ctype) (s : nat) :
  as_ctype ml (dtype A) = Ok ctp ->
  ndim A <> 0%nat ->
  length (strides A) <> length (shape A) ->
  (ndim A <= 64)%nat ->
  get_ranked_memref_descriptor ml A s = Raise TypeError.
Proof.
  intros Hc Hr Hs Hn. unfold get_ranked_memref_descriptor.
  rewrite (bindM_lift _ _ _ _ Hc).
  destruct (Nat.eqb_spec (ndim A) 0) as [E|_]; [contradiction|].
  rewrite bindM_make_nd by (apply small_rank; exact Hn).
  set (cls := {| cls_id := s; cls_doc := nd_doc; _fields_ := nd_fields (ndim A) ctp |}).
  pose proof (layout_nd cls (ndim A) ctp eq_refl) as Hl.
  rewrite bindM_ret.
  erewrite bindM_lift
    by (eapply setattr_field; [cbn [new itype]; rewrite Hl|]; reflexivity).
  erewrite bindM_lift
    by (eapply setattr_field;
        [cbn [new itype]; rewrite Hl; reflexivity|apply encode_pointer]).
  erewrite bindM_lift
    by (eapply setattr_field; [cbn [new itype]; rewrite Hl|]; reflexivity).
  erewrite bindM_lift
    by (eapply setattr_field;
        [cbn [new itype]; rewrite Hl; reflexivity
        |apply encode_array, length_c_longlong_array]).
  erewrite bindM_lift
    by (apply mapM_floordiv; pose proof (itemsize_pos (dtype A)); lia).
  apply bindM_lift_raise. eapply setattr_refused.
  - cbn [new itype]. rewrite Hl. reflexivity.
  - cbn [encode]. rewrite length_c_longlong_array, length_map.
    destruct (Nat.eqb_spec (length (strides A)) (ndim A)); [contradiction|reflexivity].
Qed.

Lemma field_same_fields (c1 c2 : Structure) (buf : list byte) (name : string) :
  _fields_ c1 = _fields_ c2 ->
  field (RefTo {| itype := c1; buffer := buf |}) name =
  field (RefTo {| itype := c2; buffer := buf |}) name.
Proof.
  intro H. unfold field. cbn [index0 bind]. apply getattr_same_fields. exact H.
Qed.

(** For an array with at least one dimension the two reverse paths return
    the same view, or raise the same exception. *)
Lemma unranked_agrees_with_ranked (ml : bool) (A : ndarray np_dtype) (s : nat) :
  Nat.eqb (ndim A) 0 = false ->
  (ndim A <= 64)%nat ->
  value_of (unranked_round_trip ml A s) = value_of (round_trip ml A s).
Proof.
  intros Hr Hn. apply Nat.eqb_neq in Hr.
  unfold unranked_round_trip, round_trip.
  unfold bindM at 1 2. rewrite get_unranked_memref_descriptor_eq.
  destruct (as_ctype ml (dtype A)) as [ctp|e] eqn:Hc.
  - destruct (Nat.eq_dec (length (strides A)) (length (shape A))) as [Hl|Hl].
    + rewrite (get_ranked_nd ml A ctp s Hc Hr Hl Hn).
      cbn [buffer]. unfold unranked_memref_to_numpy.
      rewrite (bindM_lift _ _ _ _ Hc). cbn [index0].
      erewrite bindM_lift by reflexivity.
      cbn [rank].
      rewrite c_longlong_value_small
        by (change (2 ^ 63) with 9223372036854775808; lia).
      rewrite bindM_make_nd by (apply small_rank; exact Hn).
      erewrite bindM_lift by reflexivity.
      rewrite bindM_ret.
      cbn [descriptor cast_to_POINTER]. unfold ctypes_pointer.
      unfold ranked_memref_to_numpy.
      rewrite !(field_same_fields
                  {| cls_id := S s; cls_doc := nd_doc;
                     _fields_ := nd_fields (ndim A) ctp |}
                  {| cls_id := s; cls_doc := nd_doc;
                     _fields_ := nd_fields (ndim A) ctp |}) by reflexivity.
      unfold lift, value_of.
      destruct (bind (field _ "aligned") _); reflexivity.
    + rewrite (get_ranked_nd_mismatch ml A ctp s Hc Hr Hl Hn). reflexivity.
  - unfold get_ranked_memref_descriptor. rewrite Hc. reflexivity.
Qed.

(** ** The scenario of the specification *)

(** A 2x3 row-major array of 8-byte floats with byte strides (24, 8) gets
    the element strides (3, 1), offset 0 and shape (2, 3), and the reverse
    conversion gives the byte strides (24, 8) back. *)
Example matrix_2x3_scenario :
  exists x,
    get_ranked_memref_descriptor true matrix_2x3 0%nat = Ok (x, 1%nat) /\
    getattr x "strides" = Ok (VArr [3; 1]) /\
    getattr x "offset" = Ok (VInt 0) /\
    getattr x "shape" = Ok (VArr [2; 3]) /\
    ranked_memref_to_numpy true (ctypes_pointer x) = Ok (as_view matrix_2x3).
Proof. eexists. split; [reflexivity|]. repeat split. Qed.

(** With [ml_dtypes], a bfloat16 array comes back as a bfloat16 view of the
    same bytes. *)
Example bfloat16_round_trip :
  value_of (round_trip true
              {| dtype := bfloat16; data := 4096; shape := [2; 3]; strides := [6; 2] |}
              0%nat)
  = Ok {| dtype := Logical bfloat16; data := 4096; shape := [2; 3]; strides := [6; 2] |}.
Proof. reflexivity. Qed.

(** ** The two mappings between element types *)

Lemma dtype_is_true (d : array_dtype) (t : ctype) :
  dtype_is d t = true -> d = dtype_of_ctype t.
Proof.
  unfold dtype_is. destruct (array_dtype_eq_dec d (dtype_of_ctype t)); [auto|discriminate].
Qed.

Lemma to_numpy_logical (ml : bool) (d : np_dtype) (a : Z) (sh st : list Z) :
  to_numpy ml {| dtype := Logical d; data := a; shape := sh; strides := st |} =
  Ok {| dtype := Logical d; data := a; shape := sh; strides := st |}.
Proof. destruct ml; reflexivity. Qed.

(** X1.  The reverse mapping undoes the forward one: for every element
    type the forward mapping accepts, an array laid out as the ctypes type
    it chose is given back as an array of that element type, on the same
    address with the same shape and strides. *)
Theorem to_numpy_inverts_as_ctype (ml : bool) (d : np_dtype) (ctp : ctype) :
  as_ctype ml d = Ok ctp ->
  forall a sh st,
    to_numpy ml {| dtype := dtype_of_ctype ctp; data := a; shape := sh; strides := st |} =
    Ok {| dtype := Logical d; data := a; shape := sh; strides := st |}.
Proof.
  intros Hc a sh st. apply to_numpy_as_ctype. exact Hc.
Qed.

Lemma to_numpy_inverts_as_ctype_witness :
  to_numpy true {| dtype := dtype_of_ctype C128; data := 4096;
                   shape := [2; 3]; strides := [48; 16] |} =
  Ok {| dtype := Logical complex128; data := 4096;
        shape := [2; 3]; strides := [48; 16] |}.
Proof.
  apply (to_numpy_inverts_as_ctype true complex128 C128 eq_refl 4096 [2; 3] [48; 16]).
Defined.

(** X2.  The ctypes type chosen for an element type is as wide as the
    element, and so is the element type numpy derives from it: the strides
    of a descriptor count elements of the right size. *)
Theorem as_ctype_keeps_element_size (ml : bool) (d : np_dtype) (ctp : ctype) :
  as_ctype ml d = Ok ctp ->
  Z.of_nat (sizeof ctp) = itemsize d /\
  array_itemsize (dtype_of_ctype ctp) = itemsize d.
Proof.
  intro Hc. split.
  - apply (as_ctype_sizeof ml d ctp Hc).
  - apply (as_ctype_itemsize ml d ctp Hc).
Qed.

Lemma as_ctype_keeps_element_size_witness :
  Z.of_nat (sizeof F16) = itemsize float16 /\
  array_itemsize (dtype_of_ctype F16) = itemsize float16.
Proof.
  apply (as_ctype_keeps_element_size false float16 F16). reflexivity.
Defined.

(** X3.  Two element types that get the same ctypes type are the same
    element type. *)
Theorem as_ctype_injective (ml : bool) (d1 d2 : np_dtype) (ctp : ctype) :
  as_ctype ml d1 = Ok ctp ->
  as_ctype ml d2 = Ok ctp ->
  d1 = d2.
Proof.
  intros H1 H2.
  pose proof (to_numpy_as_ctype ml d1 ctp 0 [] [] H1) as E1.
  pose proof (to_numpy_as_ctype ml d2 ctp 0 [] [] H2) as E2.
  rewrite E1 in E2. injection E2 as E. exact E.
Qed.

Lemma as_ctype_injective_witness : int16 = int16.
Proof.
  apply (as_ctype_injective true int16 int16 c_short); reflexivity.
Defined.

(** X4.  What the forward mapping accepts without [ml_dtypes] it accepts
    with it, and maps to the same ctypes type. *)
Theorem as_ctype_kept_with_ml_dtypes (d : np_dtype) (ctp : ctype) :
  as_ctype false d = Ok ctp ->
  forall ml, as_ctype ml d = Ok ctp.
Proof.
  intros H ml. destruct ml; [|exact H].
  destruct d; cbn in *; try discriminate; exact H.
Qed.

Lemma as_ctype_kept_with_ml_dtypes_witness :
  as_ctype true float16 = Ok F16.
Proof.
  apply (as_ctype_kept_with_ml_dtypes float16 F16 eq_refl true).
Defined.

(** X5.  The forward mapping raises nothing of its own: whenever it
    fails, numpy's mapping was asked and refused the type. *)
Theorem as_ctype_error (ml : bool) (d : np_dtype) (e : exn) :
  as_ctype ml d = Raise e ->
  e = NotImplementedError /\ as_ctypes_type d = Raise e.
Proof.
  destruct d, ml; cbn; intro H; try discriminate; injection H as <-; split; reflexivity.
Qed.

Lemma as_ctype_error_witness :
  NotImplementedError = NotImplementedError /\
  as_ctypes_type longdouble = Raise NotImplementedError.
Proof.
  apply (as_ctype_error true longdouble NotImplementedError). reflexivity.
Defined.

(** X6.  Whenever the reverse mapping returns, the array returned is on
    the same address with the same shape, the same strides and elements of
    the same width: only the element type may have changed. *)
Theorem to_numpy_keeps_the_view (ml : bool) (a v : ndarray array_dtype) :
  to_numpy ml a = Ok v ->
  data v = data a /\
  shape v = shape a /\
  strides v = strides a /\
  array_itemsize (dtype v) = array_itemsize (dtype a).
Proof.
  unfold to_numpy, view.
  repeat match goal with
         | |- context [if ?c then _ else _] => destruct c eqn:?
         end;
    intro H; try discriminate H; injection H as <-; cbn [data shape strides dtype];
    repeat split;
    match goal with
    | E : (_ =? _) = true |- _ => apply Z.eqb_eq in E; symmetry; exact E
    end.
Qed.

Lemma to_numpy_keeps_the_view_witness :
  data {| dtype := Logical complex64; data := 64; shape := [2]; strides := [8] |} = 64 /\
  shape {| dtype := Logical complex64; data := 64; shape := [2]; strides := [8] |} = [2] /\
  strides {| dtype := Logical complex64; data := 64; shape := [2]; strides := [8] |} = [8] /\
  array_itemsize (Logical complex64) = array_itemsize (dtype_of_ctype C64).
Proof.
  apply (to_numpy_keeps_the_view true
           {| dtype := dtype_of_ctype C64; data := 64; shape := [2]; strides := [8] |}).
  reflexivity.
Defined.

Lemma view_same_width (a : ndarray array_dtype) (t : ctype) (d : np_dtype) :
  dtype a = dtype_of_ctype t ->
  array_itemsize (dtype_of_ctype t) = itemsize d ->
  view a d = Ok {| dtype := Logical d; data := data a;
                   shape := shape a; strides := strides a |}.
Proof.
  intros E W. unfold view. rewrite E, W, Z.eqb_refl. reflexivity.
Qed.

(** X7.  The reverse mapping fails in one situation only: [ml_dtypes] is
    missing and the elements are laid out as [BF16] or [F8E5M2]; the error
    is the assertion that names the type and asks for the package.  With
    [ml_dtypes] it always returns. *)
Theorem to_numpy_error (ml : bool) (a : ndarray array_dtype) (e : exn) :
  to_numpy ml a = Raise e ->
  ml = false /\
  ((dtype a = dtype_of_ctype BF16 /\ e = AssertionError (install_hint "bfloat16")) \/
   (dtype a = dtype_of_ctype F8E5M2 /\ e = AssertionError (install_hint "float8_e5m2"))).
Proof.
  unfold to_numpy.
  destruct (dtype_is (dtype a) C128) eqn:E1.
  { rewrite (view_same_width a C128 complex128 (dtype_is_true _ _ E1) eq_refl).
    discriminate. }
  destruct (dtype_is (dtype a) C64) eqn:E2.
  { rewrite (view_same_width a C64 complex64 (dtype_is_true _ _ E2) eq_refl).
    discriminate. }
  destruct (dtype_is (dtype a) F16) eqn:E3.
  { rewrite (view_same_width a F16 float16 (dtype_is_true _ _ E3) eq_refl).
    discriminate. }
  destruct (dtype_is (dtype a) BF16) eqn:E4.
  { destruct ml; cbn [andb negb].
    - rewrite (view_same_width a BF16 bfloat16 (dtype_is_true _ _ E4) eq_refl).
      discriminate.
    - intro H. injection H as <-. split; [reflexivity|].
      left. split; [apply dtype_is_true; exact E4|reflexivity]. }
  cbn [andb].
  destruct (dtype_is (dtype a) F8E5M2) eqn:E5.
  { destruct ml; cbn [andb negb].
    - rewrite (view_same_width a F8E5M2 float8_e5m2 (dtype_is_true _ _ E5) eq_refl).
      discriminate.
    - intro H. injection H as <-. split; [reflexivity|].
      right. split; [apply dtype_is_true; exact E5|reflexivity]. }
  cbn [andb]. discriminate.
Qed.

Lemma to_numpy_error_witness :
  false = false /\
  ((dtype_of_ctype F8E5M2 = dtype_of_ctype BF16 /\
    AssertionError (install_hint "float8_e5m2") = AssertionError (install_hint "bfloat16")) \/
   (dtype_of_ctype F8E5M2 = dtype_of_ctype F8E5M2 /\
    AssertionError (install_hint "float8_e5m2") = AssertionError (install_hint "float8_e5m2"))).
Proof.
  apply (to_numpy_error false
           {| dtype := dtype_of_ctype F8E5M2; data := 64; shape := [4]; strides := [1] |}).
  reflexivity.
Defined.

(** X8.  An array whose elements have a numpy scalar type passes through
    the reverse mapping unchanged, and the reverse mapping applied to its
    own result changes nothing more. *)
Theorem to_numpy_idempotent (ml : bool) (a v : ndarray array_dtype) :
  to_numpy ml a = Ok v ->
  to_numpy ml v = Ok v /\
  (forall d, dtype a = Logical d -> v = a).
Proof.
  intro H. split.
  - revert H. unfold to_numpy at 1, view.
    destruct (dtype_is (dtype a) C128) eqn:E1;
      [destruct (_ =? _); intro H; [injection H as <-; apply to_numpy_logical|discriminate]|].
    destruct (dtype_is (dtype a) C64) eqn:E2;
      [destruct (_ =? _); intro H; [injection H as <-; apply to_numpy_logical|discriminate]|].
    destruct (dtype_is (dtype a) F16) eqn:E3;
      [destruct (_ =? _); intro H; [injection H as <-; apply to_numpy_logical|discriminate]|].
    destruct (dtype_is (dtype a) BF16) eqn:E4.
    { destruct ml; cbn [andb negb]; [|discriminate].
      destruct (_ =? _); intro H; [injection H as <-; apply to_numpy_logical|discriminate]. }
    cbn [andb].
    destruct (dtype_is (dtype a) F8E5M2) eqn:E5.
    { destruct ml; cbn [andb negb]; [|discriminate].
      destruct (_ =? _); intro H; [injection H as <-; apply to_numpy_logical|discriminate]. }
    cbn [andb]. intro H. injection H as <-.
    unfold to_numpy. rewrite E1, E2, E3, E4, E5. reflexivity.
  - intros d Hd. destruct a as [da aa sha sta]. cbn [dtype] in Hd. subst da.
    rewrite to_numpy_logical in H. injection H as <-. reflexivity.
Qed.

Lemma to_numpy_idempotent_witness :
  to_numpy true {| dtype := Logical float16; data := 64; shape := [3]; strides := [2] |}
  = Ok {| dtype := Logical float16; data := 64; shape := [3]; strides := [2] |} /\
  (forall d, dtype_of_ctype F16 = Logical d ->
     {| dtype := Logical float16; data := 64; shape := [3]; strides := [2] |}
     = {| dtype := dtype_of_ctype F16; data := 64; shape := [3]; strides := [2] |}).
Proof.
  apply (to_numpy_idempotent true
           {| dtype := dtype_of_ctype F16; data := 64; shape := [3]; strides := [2] |}).
  reflexivity.
Defined.

(** ** Moving a pointer twice *)

(** X9.  Moving a pointer by [j] elements and the result by [k] elements
    is moving it by [j + k] elements. *)
Theorem move_aligned_ptr_by_offset_twice (p q r : pointer) (j k : Z) :
  move_aligned_ptr_by_offset (VPtr p) (VInt j) = Ok q ->
  move_aligned_ptr_by_offset (VPtr q) (VInt k) = Ok r ->
  move_aligned_ptr_by_offset (VPtr p) (VInt (j + k)) = Ok r.
Proof.
  unfold move_aligned_ptr_by_offset, contents_address.
  destruct (addr p =? 0); [discriminate|]. cbn [bind].
  intro Hq. injection Hq as <-. cbn [cast_int addr ptype].
  destruct (_ =? 0); [discriminate|]. cbn [bind].
  intro Hr. injection Hr as <-. f_equal. unfold cast_int. f_equal.
  rewrite Zplus_mod_idemp_l. f_equal. ring.
Qed.

Lemma move_aligned_ptr_by_offset_twice_witness :
  move_aligned_ptr_by_offset (VPtr {| ptype := c_double; addr := 4096 |}) (VInt (2 + -5))
  = Ok {| ptype := c_double; addr := 4072 |}.
Proof.
  apply (move_aligned_ptr_by_offset_twice
           {| ptype := c_double; addr := 4096 |} {| ptype := c_double; addr := 4112 |});
    reflexivity.
Defined.

(** ** More on the forward conversion *)

Lemma length_filled (r : nat) (a p o : Z) (sh st : list Z) :
  length sh = r -> length st = r ->
  length (filled r a p o sh st) = (24 + 16 * r)%nat.
Proof. intros Hsh Hst. unfold filled. buffer_lengths. Qed.

(** X10.  An element type the forward mapping refuses stops both forward
    conversions, and so both round trips, with the error of the mapping:
    no descriptor is returned. *)
Theorem unsupported_dtype_stops_the_conversion
    (ml : bool) (A : ndarray np_dtype) (e : exn) :
  as_ctype ml (dtype A) = Raise e ->
  forall s,
    get_ranked_memref_descriptor ml A s = Raise e /\
    get_unranked_memref_descriptor ml A s = Raise e /\
    round_trip ml A s = Raise e /\
    unranked_round_trip ml A s = Raise e.
Proof.
  intros Hc s.
  assert (Hg : get_ranked_memref_descriptor ml A s = Raise e)
    by (unfold get_ranked_memref_descriptor; rewrite Hc; reflexivity).
  assert (Hu : get_unranked_memref_descriptor ml A s = Raise e)
    by (rewrite get_unranked_memref_descriptor_eq, Hg; reflexivity).
  repeat split; try assumption.
  - unfold round_trip, bindM. rewrite Hg. reflexivity.
  - unfold unranked_round_trip, bindM. rewrite Hu. reflexivity.
Qed.

Lemma unsupported_dtype_stops_the_conversion_witness :
  get_ranked_memref_descriptor false
    {| dtype := object_; data := 4096; shape := [2]; strides := [8] |} 0%nat
    = Raise NotImplementedError /\
  get_unranked_memref_descriptor false
    {| dtype := object_; data := 4096; shape := [2]; strides := [8] |} 0%nat
    = Raise NotImplementedError /\
  round_trip false
    {| dtype := object_; data := 4096; shape := [2]; strides := [8] |} 0%nat
    = Raise NotImplementedError /\
  unranked_round_trip false
    {| dtype := object_; data := 4096; shape := [2]; strides := [8] |} 0%nat
    = Raise NotImplementedError.
Proof.
  apply (unsupported_dtype_stops_the_conversion false
           {| dtype := object_; data := 4096; shape := [2]; strides := [8] |}
           NotImplementedError eq_refl 0%nat).
Defined.

(** X11.  For every array of an accepted element type, of any rank, the
    forward conversion returns a descriptor; it creates exactly one class
    for it, and the descriptor is 24 bytes plus 16 bytes per dimension,
    the size of that class. *)
Theorem descriptor_size (ml : bool) (A : ndarray np_dtype) (ctp : ctype) :
  as_ctype ml (dtype A) = Ok ctp ->
  ndarray_ok A = true ->
  forall s, exists x,
    get_ranked_memref_descriptor ml A s = Ok (x, S s) /\
    cls_id (itype x) = s /\
    length (buffer x) = sizeof_struct (itype x) /\
    length (buffer x) = (24 + 16 * ndim A)%nat.
Proof.
  intros Hc Hok s.
  destruct (ndarray_ok_spec A Hok) as (_ & Hn & Hl & _).
  destruct (Nat.eq_dec (ndim A) 0) as [Hr|Hr].
  - eexists. split; [apply (get_ranked_zero_d ml A ctp s Hc Hr)|].
    cbn [itype buffer cls_id]. rewrite length_filled_zero_d, Hr.
    repeat split.
  - eexists. split; [apply (get_ranked_nd ml A ctp s Hc Hr Hl Hn)|].
    cbn [itype buffer cls_id].
    rewrite length_filled
      by (rewrite length_c_longlong_array, ?length_map; auto).
    rewrite (sizeof_nd {| cls_id := s; cls_doc := nd_doc;
                          _fields_ := nd_fields (ndim A) ctp |} (ndim A) ctp eq_refl).
    repeat split.
Qed.

Lemma descriptor_size_witness :
  exists x,
    get_ranked_memref_descriptor true matrix_2x3 3%nat = Ok (x, 4%nat) /\
    cls_id (itype x) = 3%nat /\
    length (buffer x) = sizeof_struct (itype x) /\
    length (buffer x) = (24 + 16 * ndim matrix_2x3)%nat.
Proof.
  apply (descriptor_size true matrix_2x3 c_double); reflexivity.
Defined.

(** X12.  The descriptor of a 0-dimensional array holds the address of
    the element in [allocated] (as the 64-bit word it is; as the same
    integer when the address is below 2^63) and in [aligned]. *)
Theorem zero_d_descriptor_fields (ml : bool) (A : ndarray np_dtype) (ctp : ctype) :
  as_ctype ml (dtype A) = Ok ctp ->
  ndarray_ok A = true ->
  ndim A = 0%nat ->
  forall s, exists x allocated,
    get_ranked_memref_descriptor ml A s = Ok (x, S s) /\
    getattr x "allocated" = Ok (VInt allocated) /\
    allocated mod two64 = data A /\
    (data A < 2 ^ 63 -> allocated = data A) /\
    getattr x "aligned" = Ok (VPtr {| ptype := ctp; addr := data A |}).
Proof.
  intros Hc Hok Hr s.
  destruct (ndarray_ok_spec A Hok) as (Hd & _).
  eexists; exists (c_longlong_value (data A)).
  split; [apply (get_ranked_zero_d ml A ctp s Hc Hr)|].
  split; [apply (filled_zero_d_allocated _ ctp); reflexivity|].
  split; [rewrite c_longlong_value_bits; apply data_mod; exact Hd|].
  split; [intro Hs; apply c_longlong_value_small;
          change (2 ^ 63) with 9223372036854775808 in *; lia|].
  rewrite (filled_zero_d_aligned _ ctp); [|reflexivity].
  rewrite Z.mod_mod, (data_mod A Hd) by (rewrite two64_eq; lia). reflexivity.
Qed.

Lemma zero_d_descriptor_fields_witness :
  exists x allocated,
    get_ranked_memref_descriptor true scalar_array 0%nat = Ok (x, 1%nat) /\
    getattr x "allocated" = Ok (VInt allocated) /\
    allocated mod two64 = 4096 /\
    (4096 < 2 ^ 63 -> allocated = 4096) /\
    getattr x "aligned" = Ok (VPtr {| ptype := c_int; addr := 4096 |}).
Proof.
  apply (zero_d_descriptor_fields true scalar_array c_int); reflexivity.
Defined.

(** ** The reverse conversion, field by field *)

Lemma ctype_ndarray_nonneg (size : Z) (sh : list Z) (total : Z) :
  ctype_ndarray size sh = Ok total -> existsb (fun d => d <? 0) sh = false.
Proof.
  revert total. induction sh as [|d sh IH]; intros total H; [reflexivity|].
  cbn [ctype_ndarray] in H.
  destruct (ctype_ndarray size sh) as [inner|e]; [|discriminate H].
  cbn [bind] in H. unfold array_type_size in H.
  cbn [existsb]. rewrite (IH inner eq_refl).
  destruct (d <? 0); [discriminate H|reflexivity].
Qed.

Lemma reverse_of_fields (ml : bool) (d : instance) (dt : np_dtype) (ctp : ctype)
    (p o : Z) (sh st : list Z) :
  as_ctype ml dt = Ok ctp ->
  getattr d "aligned" = Ok (VPtr {| ptype := ctp; addr := p |}) ->
  getattr d "offset" = Ok (VInt o) ->
  getattr d "shape" = Ok (VArr sh) ->
  getattr d "strides" = Ok (VArr st) ->
  (p =? 0) = false ->
  ((p + o * itemsize dt) mod two64 =? 0) = false ->
  length sh = length st ->
  (exists total, ctype_ndarray (itemsize dt) sh = Ok total) ->
  numpy_shape_ok (itemsize dt) sh = true ->
  ranked_memref_to_numpy ml (RefTo d) =
  Ok {| dtype := Logical dt; data := (p + o * itemsize dt) mod two64;
        shape := sh; strides := int64_mul st (itemsize dt) |}.
Proof.
  intros Hc Hal Hoff Hsh Hst Hp Ha Hlen [total Ht] Hnp.
  unfold ranked_memref_to_numpy, field. cbn [index0 bind].
  rewrite Hal, Hoff, Hsh, Hst.
  cbn [bind move_aligned_ptr_by_offset as_sequence].
  unfold contents_address. cbn [addr ptype]. rewrite Hp. cbn [bind].
  rewrite (as_ctype_sizeof ml dt ctp Hc).
  unfold cast_int, as_array. cbn [addr ptype].
  rewrite (as_ctype_sizeof ml dt ctp Hc), Ht, Ha. cbn [bind].
  rewrite (as_ctype_itemsize ml dt ctp Hc), Hnp. cbn [negb bind].
  unfold as_strided. cbn [dtype].
  rewrite (as_ctype_itemsize ml dt ctp Hc), Hnp.
  unfold int64_mul at 1. rewrite length_map, Hlen, Nat.eqb_refl.
  cbn [negb bind dtype data].
  apply to_numpy_as_ctype. exact Hc.
Qed.

(** X13.  What the ranked reverse conversion computes from the four
    fields it reads: the view starts [offset] elements past [aligned]
    (as a 64-bit address), has the shape stored, and its byte strides are
    the strides stored times the element size (as 64-bit integers).  Both
    the aligned pointer and the address reached must not be NULL, the
    shape must be one that ctypes can give an array type, and it must be
    one numpy accepts: at most 64 extents, none negative, the non-zero
    ones times the element size below 2^63. *)
Theorem reverse_conversion_formula (ml : bool) (d : instance) (dt : np_dtype)
    (ctp : ctype) (p o : Z) (sh st : list Z) :
  as_ctype ml dt = Ok ctp ->
  getattr d "aligned" = Ok (VPtr {| ptype := ctp; addr := p |}) ->
  getattr d "offset" = Ok (VInt o) ->
  getattr d "shape" = Ok (VArr sh) ->
  getattr d "strides" = Ok (VArr st) ->
  (p =? 0) = false ->
  ((p + o * itemsize dt) mod two64 =? 0) = false ->
  length sh = length st ->
  (exists total, ctype_ndarray (itemsize dt) sh = Ok total) ->
  numpy_shape_ok (itemsize dt) sh = true ->
  ranked_memref_to_numpy ml (RefTo d) =
  Ok {| dtype := Logical dt; data := (p + o * itemsize dt) mod two64;
        shape := sh; strides := int64_mul st (itemsize dt) |}.
Proof. exact (reverse_of_fields ml d dt ctp p o sh st). Qed.

Lemma reverse_conversion_formula_witness :
  ranked_memref_to_numpy false
    (RefTo {| itype := {| cls_id := 0; cls_doc := nd_doc;
                          _fields_ := nd_fields 1 c_float |};
              buffer := filled 1 4096 4096 2 [5] [-1] |}) =
  Ok {| dtype := Logical float32; data := (4096 + 2 * itemsize float32) mod two64;
        shape := [5]; strides := int64_mul [-1] (itemsize float32) |}.
Proof.
  apply (reverse_conversion_formula false _ float32 c_float 4096 2 [5] [-1]);
    try reflexivity.
  exists 20. reflexivity.
Defined.

(** X14.  A descriptor whose aligned pointer is NULL cannot be turned into
    an array, whatever else it holds, and neither can a NULL pointer to a
    descriptor: both raise [ValueError]. *)
Theorem null_pointer_stops_the_reverse_conversion
    (ml : bool) (d : instance) (p : pointer) (o : value) :
  getattr d "aligned" = Ok (VPtr p) ->
  addr p = 0 ->
  getattr d "offset" = Ok o ->
  ranked_memref_to_numpy ml (RefTo d) = Raise ValueError /\
  ranked_memref_to_numpy ml Null = Raise ValueError.
Proof.
  intros Hal Hp Hoff. split; [|reflexivity].
  unfold ranked_memref_to_numpy, field. cbn [index0 bind].
  rewrite Hal, Hoff. cbn [bind move_aligned_ptr_by_offset].
  unfold contents_address. rewrite Hp. reflexivity.
Qed.

Lemma null_pointer_stops_the_reverse_conversion_witness :
  ranked_memref_to_numpy true
    (RefTo {| itype := {| cls_id := 0; cls_doc := nd_doc;
                          _fields_ := nd_fields 1 c_float |};
              buffer := filled 1 0 0 0 [0] [1] |}) = Raise ValueError /\
  ranked_memref_to_numpy true Null = Raise ValueError.
Proof.
  apply (null_pointer_stops_the_reverse_conversion true _
           {| ptype := c_float; addr := 0 |} (VInt 0)); reflexivity.
Defined.

(** X15.  Offsets count elements end to end: take the descriptor of an
    array (at least one dimension, strides that are whole elements), store
    [k] in its [offset] field, and convert it back: the view has the shape
    and strides of the array and starts [k] times the element size past
    its buffer, provided that address is one. *)
Theorem offset_field_moves_the_view
    (ml : bool) (A : ndarray np_dtype) (ctp : ctype) (k : Z) :
  as_ctype ml (dtype A) = Ok ctp ->
  ndarray_ok A = true ->
  Nat.eqb (ndim A) 0 = false ->
  element_aligned A = true ->
  addressable A = true ->
  - 2 ^ 63 <= k < 2 ^ 63 ->
  0 < data A + k * itemsize (dtype A) < two64 ->
  forall s, exists x x',
    get_ranked_memref_descriptor ml A s = Ok (x, S s) /\
    setattr x "offset" (VInt k) = Ok x' /\
    ranked_memref_to_numpy ml (ctypes_pointer x') =
    Ok {| dtype := Logical (dtype A);
          data := data A + k * itemsize (dtype A);
          shape := shape A; strides := strides A |}.
Proof.
  intros Hc Hok Hr Hal Had Hk Ha s.
  destruct (ndarray_ok_spec A Hok) as (Hd & Hn & Hl & Fsh & Fst).
  apply Nat.eqb_neq in Hr. apply element_aligned_spec in Hal.
  pose proof (itemsize_pos (dtype A)) as Hi.
  set (cls := {| cls_id := s; cls_doc := nd_doc; _fields_ := nd_fields (ndim A) ctp |}).
  set (sh := c_longlong_array (shape A)).
  set (st := c_longlong_array (map (fun b => b / itemsize (dtype A)) (strides A))).
  assert (Hf : _fields_ cls = nd_fields (ndim A) ctp) by reflexivity.
  assert (Lsh : length sh = ndim A) by apply length_c_longlong_array.
  assert (Lst : length st = ndim A)
    by (unfold st; rewrite length_c_longlong_array, length_map; exact Hl).
  assert (Esh : sh = shape A)
    by (apply map_c_longlong_value_small, extents_small; assumption).
  assert (Est : st = map (fun b => b / itemsize (dtype A)) (strides A))
    by (apply map_c_longlong_value_small, floordiv_all_range; assumption).
  pose proof (length_filled (ndim A) (data A) (data A mod two64) 0 sh st Lsh Lst) as Lb.
  pose proof (layout_nd cls (ndim A) ctp Hf) as Hlay.
  exists {| itype := cls;
            buffer := filled (ndim A) (data A) (data A mod two64) 0 sh st |}.
  exists {| itype := cls;
            buffer := write (filled (ndim A) (data A) (data A mod two64) 0 sh st)
                            16 (le_split 8 k) |}.
  split; [apply (get_ranked_nd ml A ctp s Hc Hr Hl Hn)|].
  split.
  { erewrite setattr_field;
      [reflexivity|cbn [itype]; rewrite Hlay; reflexivity|reflexivity]. }
  unfold ctypes_pointer.
  rewrite (reverse_of_fields ml _ (dtype A) ctp (data A) k (shape A)
             (map (fun b => b / itemsize (dtype A)) (strides A)) Hc).
  - rewrite (Z.mod_small _ two64) by lia.
    rewrite int64_mul_floordiv by assumption. reflexivity.
  - erewrite getattr_write_other;
      [ | rewrite Hlay; reflexivity | rewrite Lb, length_le_split; lia
        | rewrite length_le_split; cbn [sizeof_field]; lia ].
    rewrite (filled_aligned cls (ndim A) ctp _ _ _ sh st Hf Lsh Lst).
    rewrite Z.mod_mod, (data_mod A Hd) by (rewrite two64_eq; lia). reflexivity.
  - erewrite getattr_write_same;
      [ | rewrite Hlay; reflexivity | apply length_le_split
        | rewrite Lb, length_le_split; lia ].
    cbn [decode]. rewrite le_combine_le_split_8, c_longlong_value_mod.
    rewrite c_longlong_value_small by assumption. reflexivity.
  - erewrite getattr_write_other;
      [ | rewrite Hlay; reflexivity | rewrite Lb, length_le_split; lia
        | rewrite length_le_split; cbn [sizeof_field]; lia ].
    rewrite (filled_shape cls (ndim A) ctp _ _ _ sh st Hf Lsh Lst).
    rewrite Esh at 1.
    rewrite (map_c_longlong_value_small (shape A)) by (apply extents_small; assumption).
    reflexivity.
  - erewrite getattr_write_other;
      [ | rewrite Hlay; reflexivity | rewrite Lb, length_le_split; lia
        | rewrite length_le_split; cbn [sizeof_field]; lia ].
    rewrite (filled_strides cls (ndim A) ctp _ _ _ sh st Hf Lsh Lst).
    rewrite Est at 1.
    rewrite (map_c_longlong_value_small (map _ (strides A)))
      by (apply floordiv_all_range; assumption).
    reflexivity.
  - apply Z.eqb_neq. lia.
  - apply Z.eqb_neq. rewrite Z.mod_small by lia. lia.
  - rewrite length_map. symmetry. exact Hl.
  - apply (addressable_spec A Had).
  - apply (addressable_spec A Had).
Qed.

Lemma offset_field_moves_the_view_witness :
  exists x x',
    get_ranked_memref_descriptor true matrix_2x3 0%nat = Ok (x, 1%nat) /\
    setattr x "offset" (VInt 3) = Ok x' /\
    ranked_memref_to_numpy true (ctypes_pointer x') =
    Ok {| dtype := Logical float64; data := 4096 + 3 * 8;
          shape := [2; 3]; strides := [24; 8] |}.
Proof.
  apply (offset_field_moves_the_view true matrix_2x3 c_double 3);
    try reflexivity; vm_compute; split; congruence.
Defined.

(** ** More on the unranked wrapper *)

(** X16.  The unranked reverse conversion looks the element type up
    before it touches the descriptor: a type the forward mapping refuses
    raises the error of the mapping, whatever the pointer passed. *)
Theorem unranked_memref_to_numpy_checks_dtype_first
    (ml : bool) (dt : np_dtype) (e : exn) :
  as_ctype ml dt = Raise e ->
  forall (unranked_memref : ref UnrankedMemRefDescriptor) (s : nat),
    unranked_memref_to_numpy ml unranked_memref dt s = Raise e.
Proof.
  intros Hc um s. unfold unranked_memref_to_numpy. rewrite Hc. reflexivity.
Qed.

Lemma unranked_memref_to_numpy_checks_dtype_first_witness :
  unranked_memref_to_numpy false Null bfloat16 0%nat = Raise NotImplementedError.
Proof.
  apply (unranked_memref_to_numpy_checks_dtype_first false bfloat16
           NotImplementedError eq_refl Null 0%nat).
Defined.

(** X17.  For an accepted element type, the unranked reverse conversion
    raises [ValueError] for a NULL pointer to the wrapper, for a wrapper
    whose rank (a 64-bit integer) is negative (ctypes has no array of
    negative length), and for a wrapper whose descriptor pointer is NULL
    and whose rank, from 0 to 2^59 - 2, is one ctypes can build the
    descriptor class for.  From rank 2^60 on it raises [OverflowError]
    before it looks at the descriptor pointer: ctypes has no array type
    that long. *)
Theorem unranked_memref_to_numpy_refusals (ml : bool) (dt : np_dtype) (ctp : ctype) :
  as_ctype ml dt = Ok ctp ->
  forall s,
    unranked_memref_to_numpy ml Null dt s = Raise ValueError /\
    (forall u, - 2 ^ 63 <= rank u < 0 ->
       unranked_memref_to_numpy ml (RefTo u) dt s = Raise ValueError) /\
    (forall u, 0 <= rank u <= 2 ^ 59 - 2 -> descriptor u = Null ->
       unranked_memref_to_numpy ml (RefTo u) dt s = Raise ValueError) /\
    (forall u, 2 ^ 60 <= rank u ->
       unranked_memref_to_numpy ml (RefTo u) dt s = Raise OverflowError).
Proof.
  intros Hc s. unfold unranked_memref_to_numpy.
  split; [rewrite (bindM_lift _ _ _ _ Hc); reflexivity|]. split; [|split].
  - intros u Hu. rewrite (bindM_lift _ _ _ _ Hc).
    cbn [index0]. erewrite bindM_lift by reflexivity.
    unfold make_nd_memref_descriptor.
    rewrite (c_longlong_times_negative (rank u) Hu). reflexivity.
  - intros u Hu Hn. rewrite (bindM_lift _ _ _ _ Hc).
    cbn [index0]. erewrite bindM_lift by reflexivity.
    rewrite <- (Z2Nat.id (rank u)) at 1 by lia.
    rewrite bindM_make_nd by (rewrite Z2Nat.id; lia).
    erewrite bindM_lift by reflexivity.
    rewrite bindM_ret, Hn. reflexivity.
  - intros u Hu. rewrite (bindM_lift _ _ _ _ Hc).
    cbn [index0]. erewrite bindM_lift by reflexivity.
    unfold make_nd_memref_descriptor.
    rewrite (c_longlong_times_too_large (rank u) Hu). reflexivity.
Qed.

Lemma unranked_memref_to_numpy_refusals_witness :
  unranked_memref_to_numpy true Null float32 0%nat = Raise ValueError /\
  unranked_memref_to_numpy true
    (RefTo {| rank := -1; descriptor := Null |}) float32 0%nat = Raise ValueError /\
  unranked_memref_to_numpy true
    (RefTo {| rank := 2; descriptor := Null |}) float32 0%nat = Raise ValueError /\
  unranked_memref_to_numpy true
    (RefTo {| rank := 2 ^ 60; descriptor := Null |}) float32 0%nat =
  Raise OverflowError.
Proof.
  destruct (unranked_memref_to_numpy_refusals true float32 c_float eq_refl 0%nat)
    as (H0 & Hneg & Hnull & Hbig).
  split; [exact H0|].
  split; [apply Hneg; cbn [rank]; lia|].
  split; [apply Hnull; [cbn [rank]; lia|reflexivity]|].
  apply Hbig. cbn [rank]. lia.
Defined.

(** X18.  For every array with at least one dimension (and at most 64, as
    numpy has), of any element type and with any strides, the round trip
    through the unranked descriptor gives what the round trip through the
    ranked descriptor gives: the same view, or the same exception. *)
Theorem unranked_path_agrees_from_rank_1 (ml : bool) (A : ndarray np_dtype) (s : nat) :
  Nat.eqb (ndim A) 0 = false ->
  (ndim A <=? 64)%nat = true ->
  value_of (unranked_round_trip ml A s) = value_of (round_trip ml A s).
Proof.
  intros Hr Hn. apply unranked_agrees_with_ranked; [exact Hr|].
  apply Nat.leb_le. exact Hn.
Qed.

Lemma unranked_path_agrees_from_rank_1_witness :
  value_of (unranked_round_trip true packed_column 0%nat) =
  value_of (round_trip true packed_column 0%nat).
Proof.
  apply (unranked_path_agrees_from_rank_1 true packed_column 0%nat); reflexivity.
Defined.

(** ** Round trips of arbitrary strides *)

Lemma itemsize_divides (d : np_dtype) : exists m, 2 ^ 63 = itemsize d * m.
Proof. exists (2 ^ 63 / itemsize d). destruct d; reflexivity. Qed.

Lemma int64_mul_rounds_down (k : Z) (st : list Z) :
  0 < k ->
  (exists m, 2 ^ 63 = k * m) ->
  Forall (fun s => - 2 ^ 63 <= s < 2 ^ 63) st ->
  int64_mul (map (fun b => b / k) st) k = map (fun b => b - b mod k) st.
Proof.
  intros Hk [m Hm] Fr. induction st as [|b st IH]; [reflexivity|].
  inversion Fr as [|? ? Hb Fr']; subst. cbn [map int64_mul].
  unfold int64_mul in IH. rewrite (IH Fr'). f_equal.
  pose proof (Z.div_mod b k ltac:(lia)) as E.
  pose proof (Z.mod_pos_bound b k Hk) as R.
  replace (b / k * k) with (b - b mod k) by lia.
  apply c_longlong_value_small. split; [|lia].
  assert (- m <= b / k) by (apply Z.div_le_lower_bound; lia).
  nia.
Qed.

Lemma round_trip_value (ml : bool) (A : ndarray np_dtype) (ctp : ctype) (s : nat) :
  as_ctype ml (dtype A) = Ok ctp ->
  ndarray_ok A = true ->
  Nat.eqb (ndim A) 0 = false ->
  addressable A = true ->
  value_of (round_trip ml A s) =
  Ok {| dtype := Logical (dtype A); data := data A; shape := shape A;
        strides := map (fun b => b - b mod itemsize (dtype A)) (strides A) |}.
Proof.
  intros Hc Hok Hr Had.
  destruct (ndarray_ok_spec A Hok) as (Hd & Hn & Hl & Fsh & Fst).
  apply Nat.eqb_neq in Hr.
  pose proof (itemsize_pos (dtype A)) as Hk.
  unfold round_trip, bindM.
  rewrite (get_ranked_nd ml A ctp s Hc Hr Hl Hn). unfold lift, ctypes_pointer.
  unfold c_longlong_array.
  rewrite (map_c_longlong_value_small (shape A)) by (apply extents_small; assumption).
  rewrite (map_c_longlong_value_small (map _ (strides A)))
    by (apply floordiv_all_range; assumption).
  rewrite (ranked_memref_to_numpy_filled ml _ (ndim A) (dtype A) ctp);
    try reflexivity; try assumption.
  - rewrite Z.mod_mod, (data_mod A Hd) by (rewrite two64_eq; lia).
    rewrite int64_mul_rounds_down;
      [reflexivity|assumption|apply itemsize_divides|assumption].
  - rewrite length_map. exact Hl.
  - rewrite Z.mod_mod, (data_mod A Hd) by (rewrite two64_eq; lia). lia.
  - apply floordiv_all_range; assumption.
  - apply (addressable_spec A Had).
  - apply (addressable_spec A Had).
Qed.

(** X19.  What the ranked round trip returns for any array of an accepted
    element type with at least one dimension: a view of that element type
    on the same address with the same shape, whose byte strides are those
    of the array rounded down to multiples of the element size. *)
Theorem round_trip_rounds_strides_down (ml : bool) (A : ndarray np_dtype) (ctp : ctype) :
  as_ctype ml (dtype A) = Ok ctp ->
  ndarray_ok A = true ->
  Nat.eqb (ndim A) 0 = false ->
  addressable A = true ->
  forall s,
    value_of (round_trip ml A s) =
    Ok {| dtype := Logical (dtype A); data := data A; shape := shape A;
          strides := map (fun b => b - b mod itemsize (dtype A)) (strides A) |}.
Proof.
  intros Hc Hok Hr Had s. apply (round_trip_value ml A ctp s Hc Hok Hr Had).
Qed.

Lemma round_trip_rounds_strides_down_witness :
  value_of (round_trip true packed_column 0%nat) =
  Ok {| dtype := Logical int32; data := 4096; shape := [3];
        strides := map (fun b => b - b mod itemsize int32) [5] |}.
Proof.
  apply (round_trip_rounds_strides_down true packed_column c_int
           eq_refl eq_refl eq_refl eq_refl 0%nat).
Defined.

Lemma rounding_of_aligned_strides (k : Z) (st : list Z) :
  Forall (fun s => s mod k = 0) st -> map (fun b => b - b mod k) st = st.
Proof.
  induction 1 as [|b st Hb _ IH]; [reflexivity|].
  cbn [map]. rewrite IH, Hb, Z.sub_0_r. reflexivity.
Qed.

(** X20.  The round trip through the unranked descriptor returns the
    array, for every rank including 0: for every array of an accepted
    element type whose byte strides are whole multiples of the element
    size (and whose shape ctypes can give an array type), the view
    returned has the element type, address, shape and strides of the
    array. *)
Theorem unranked_round_trip_identity (ml : bool) (A : ndarray np_dtype) (ctp : ctype) :
  as_ctype ml (dtype A) = Ok ctp ->
  ndarray_ok A = true ->
  element_aligned A = true ->
  addressable A = true ->
  forall s, value_of (unranked_round_trip ml A s) = Ok (as_view A).
Proof.
  intros Hc Hok Hal Had s.
  destruct (Nat.eqb (ndim A) 0) eqn:Hr.
  - apply Nat.eqb_eq in Hr. apply (unranked_round_trip_zero_d ml A ctp s Hc Hok Hr).
  - destruct (ndarray_ok_spec A Hok) as (_ & Hn & _).
    rewrite (unranked_agrees_with_ranked ml A s Hr Hn).
    rewrite (round_trip_value ml A ctp s Hc Hok Hr Had).
    rewrite rounding_of_aligned_strides by (apply element_aligned_spec; exact Hal).
    reflexivity.
Qed.

Lemma unranked_round_trip_identity_witness :
  value_of (unranked_round_trip true scalar_array 0%nat) = Ok (as_view scalar_array).
Proof.
  apply (unranked_round_trip_identity true scalar_array c_int
           eq_refl eq_refl eq_refl eq_refl 0%nat).
Defined.
